(** * Broadcast orchestration of [backend/4broadcast_txbtc4.py]

    A shallow embedding of the broadcast script: the pending record as a
    JSON value, Python's [Decimal] division under the default context,
    the validator, the two broadcast paths and the orchestrator [main],
    each run against an explicit description of the outside world and
    producing the list of effects it performed. *)

From Stdlib Require Import ZArith NArith QArith Lia Ascii String.
From stdpp Require Import base option list strings gmap.

Local Close Scope Q_scope.
Local Open Scope Z_scope.

(** ** Results and exceptions *)

(** Exceptions the script can meet. *)
Inductive exn : Type :=
| TypeError | KeyError | AttributeError | UnicodeEncodeError
| DecimalError            (* decimal.InvalidOperation *)
| DecimalOverflow         (* decimal.Overflow *)
| DivisionByZero          (* decimal.DivisionByZero *)
| OtherError.

Inductive result (A : Type) : Type :=
| Ret (a : A)
| Raise (e : exn).
Arguments Ret {A} a.
Arguments Raise {A} e.

(** ** Python's [Decimal] under the default context *)

Module Decimal.

(** A finite decimal: [(-1)^sign * coeff * 10^exp], [coeff >= 0]. *)
Record t := mk { sign : bool; coeff : Z; exp : Z }.

(** Default context: 28 significant digits, ROUND_HALF_EVEN, exponents
    between [Emin] and [Emax], no clamping, traps on InvalidOperation,
    DivisionByZero and Overflow. *)
Definition prec : Z := 28.
Definition Emax : Z := 999999.
Definition Emin : Z := -999999.
Definition Etiny : Z := Emin - prec + 1.
Definition Etop : Z := Emax - prec + 1.

(** [len(str(n))] for [n >= 0]: the recursion is bounded by the number
    of binary digits. *)
Fixpoint ndigits_aux (fuel : nat) (n : Z) : Z :=
  match fuel with
  | O => 1
  | S f => if n <? 10 then 1 else 1 + ndigits_aux f (n / 10)
  end.

Definition ndigits (n : Z) : Z := ndigits_aux (Z.to_nat (Z.log2 n)) n.

(** [Decimal(n)] for an [int]: exact, exponent 0. *)
Definition of_int (n : Z) : t := mk (n <? 0) (Z.abs n) 0.

(** The loop of [__truediv__] on an exact quotient: drop trailing zeros
    while the exponent is below the ideal one.  At most
    [ideal - exp] iterations run, which is the fuel given. *)
Fixpoint strip_zeros (fuel : nat) (c e ideal : Z) : Z * Z :=
  match fuel with
  | O => (c, e)
  | S f =>
      if (e <? ideal) && (c mod 10 =? 0)
      then strip_zeros f (c / 10) (e + 1) ideal
      else (c, e)
  end.

(** [_round_half_even]: is the coefficient, cut to its leading digits
    (dropping the last [k] ones), to be incremented? *)
Definition round_up_half_even (c k : Z) : bool :=
  let q := c / 10 ^ k in
  let r := c mod 10 ^ k in
  let half := 5 * 10 ^ (k - 1) in
  (half <? r) || ((r =? half) && Z.odd q).

(** [_fix]: bring a result into the context.  A zero has its exponent
    brought into range; a number whose adjusted exponent exceeds [Emax]
    is an overflow, which the context traps; a coefficient of more than
    [prec] digits, or an exponent below [Etiny], is rounded. *)
Definition fix_ (d : t) : result t :=
  if coeff d =? 0 then
    Ret (mk (sign d) 0 (Z.min (Z.max (exp d) Etiny) Emax))
  else
    let len := ndigits (coeff d) in
    if Etop <? len + exp d - prec then Raise DecimalOverflow
    else
      let exp_min := Z.max (len + exp d - prec) Etiny in
      if exp d <? exp_min then
        let digits := len + exp d - exp_min in
        (* with no digit left, round [1 * 10^(exp_min - 1)] instead *)
        let c := if digits <? 0 then 1 else coeff d in
        let k := if digits <? 0 then 1 else exp_min - exp d in
        let c0 := c / 10 ^ k in
        if round_up_half_even c k then
          let c1 := c0 + 1 in
          if prec <? ndigits c1 then
            if Etop <? exp_min + 1 then Raise DecimalOverflow
            else Ret (mk (sign d) (c1 / 10) (exp_min + 1))
          else Ret (mk (sign d) c1 exp_min)
        else Ret (mk (sign d) c0 exp_min)
      else Ret d.

(** [Decimal.__truediv__] for finite operands. *)
Definition div (a b : t) : result t :=
  let s := xorb (sign a) (sign b) in
  if coeff b =? 0 then
    if coeff a =? 0 then Raise DecimalError else Raise DivisionByZero
  else if coeff a =? 0 then fix_ (mk s 0 (exp a - exp b))
  else
    let shift := ndigits (coeff b) - ndigits (coeff a) + prec + 1 in
    let e := exp a - exp b - shift in
    let num := if 0 <=? shift then coeff a * 10 ^ shift else coeff a in
    let den := if 0 <=? shift then coeff b else coeff b * 10 ^ (- shift) in
    let q := num / den in
    let r := num mod den in
    if r =? 0 then
      let ideal := exp a - exp b in
      let '(c, e') := strip_zeros (Z.to_nat (ideal - e)) q e ideal in
      fix_ (mk s c e')
    else
      fix_ (mk s (if q mod 5 =? 0 then q + 1 else q) e).

(** The rational a decimal denotes. *)
Definition to_Q (d : t) : Q :=
  let m := if sign d then - coeff d else coeff d in
  if 0 <=? exp d then inject_Z (m * 10 ^ exp d)
  else Qmake m (Z.to_pos (10 ^ (- exp d))).

End Decimal.

(** [satoshis_to_btc]: [Decimal(satoshis) / Decimal(100_000_000)]. *)
Definition satoshis_to_btc (satoshis : Z) : result Decimal.t :=
  Decimal.div (Decimal.of_int satoshis) (Decimal.of_int 100000000).

(** ** Text

    A Python [str] is a sequence of code points; it may hold lone
    surrogates, which [json.loads] produces from an escape such as
    [\ud800]. *)

Definition text : Type := list N.

(** The text of an ASCII literal. *)
Definition text_of (s : string) : text :=
  map N_of_ascii (list_ascii_of_string s).

(** [str.isspace] on a code point: the characters [str.strip()]
    removes. *)
Definition is_space (c : N) : bool :=
  (((9 <=? c) && (c <=? 13)) || ((28 <=? c) && (c <=? 32))
   || (c =? 133) || (c =? 160) || (c =? 5760)
   || ((8192 <=? c) && (c <=? 8202))
   || (c =? 8232) || (c =? 8233) || (c =? 8239) || (c =? 8287)
   || (c =? 12288))%N.

Fixpoint lstrip (s : text) : text :=
  match s with
  | [] => []
  | c :: s' => if is_space c then lstrip s' else s
  end.

Definition strip (s : text) : text :=
  rev (lstrip (rev (lstrip s))).

(** A surrogate code point has no UTF-8 encoding: writing it to the
    script's output stream (a strict UTF-8 [TextIOWrapper]) raises
    [UnicodeEncodeError]. *)
Definition is_surrogate (c : N) : bool := ((55296 <=? c) && (c <=? 57343))%N.

Definition encodable (s : text) : bool :=
  forallb (fun c => negb (is_surrogate c)) s.

(** [p in s] for two strings: [p] occurs in [s]. *)
Fixpoint is_prefix (p s : text) : bool :=
  match p, s with
  | [], _ => true
  | _ :: _, [] => false
  | a :: p', b :: s' => (a =? b)%N && is_prefix p' s'
  end.

Fixpoint occurs (p s : text) : bool :=
  is_prefix p s ||
  match s with
  | [] => false
  | _ :: s' => occurs p s'
  end.

Definition text_eqb (a b : text) : bool :=
  bool_decide (a = b).

(** ** JSON values, as [json.loads] returns them

    Numbers are integers (Python's unbounded [int], without the
    interpreter's limit on the number of digits of an integer that is
    read or printed: what can be read can be printed);
    floating-point literals are outside the model.  A [dict] is a
    finite map on its string keys. *)

#[warnings="-register-all"]
Inductive json : Type :=
| JNull
| JBool (b : bool)
| JInt (n : Z)
| JStr (s : text)
| JList (l : list json)
| JDict (d : gmap string json).

(** Python's truth value of an object. *)
Definition truthy (x : json) : bool :=
  match x with
  | JNull => false
  | JBool b => b
  | JInt n => negb (n =? 0)
  | JStr s => match s with [] => false | _ :: _ => true end
  | JList l => match l with [] => false | _ :: _ => true end
  | JDict d => match map_to_list d with [] => false | _ :: _ => true end
  end.

(** [k in x]: key membership for a dict, element equality for a list,
    substring for a string; other objects are not iterable. *)
Definition is_str (k : string) (x : json) : bool :=
  match x with JStr s => text_eqb s (text_of k) | _ => false end.

Definition py_in (k : string) (x : json) : result bool :=
  match x with
  | JDict d => Ret (bool_decide (is_Some (d !! k)))
  | JList l => Ret (existsb (is_str k) l)
  | JStr s => Ret (occurs (text_of k) s)
  | JNull | JBool _ | JInt _ => Raise TypeError
  end.

(** [x[k]] for a string [k]. *)
Definition py_getitem (x : json) (k : string) : result json :=
  match x with
  | JDict d => match d !! k with Some v => Ret v | None => Raise KeyError end
  | JList _ | JStr _ | JNull | JBool _ | JInt _ => Raise TypeError
  end.

(** [x.get(k, dflt)]: only a dict has the method. *)
Definition py_get (x : json) (k : string) (dflt : json) : result json :=
  match x with
  | JDict d => Ret (default dflt (d !! k))
  | JList _ | JStr _ | JNull | JBool _ | JInt _ => Raise AttributeError
  end.

(** ** The outside world and the effects of a run *)

Inductive file_state : Type :=
| NoFile                       (* PENDING_FILE does not exist *)
| Unreadable                   (* reading or [json.loads] raises *)
| Stored (content : json).

Inductive http_outcome : Type :=
| Response (status_code : Z) (body : text)
| RequestException
| OtherFailure.                 (* an exception [requests] does not wrap *)

Inductive send_outcome : Type :=
| Sent (tx_hex : text)
| SendRaised.

(** One output of the spend: destination, amount, unit. *)
Definition output_spec : Type := json * Decimal.t * string.

Record World : Type := mkWorld {
  pending_file : file_state;
  (** [requests.post(BLOCKSTREAM_TESTNET_API, data=..)] *)
  http_post : json -> http_outcome;
  (** does [PrivateKeyTestnet(wif)] construct a key? *)
  key_of_wif : json -> bool;
  (** [key.send(outputs)] and [key.send(outputs, fee=f, absolute_fee=True)],
      the key given by its WIF *)
  key_send : json -> list output_spec -> option json -> send_outcome;
  (** does [PENDING_FILE.unlink()] succeed? *)
  unlink_ok : bool;
  (** [Decimal(x)] for a string or a list (special values excluded) *)
  decimal_of_text : json -> result Decimal.t
}.

(** The lines the script prints, by their content.  The messages of
    library exceptions are part of the line and are taken to be
    printable. *)
Inductive line : Type :=
| LBanner | LNoPending | LLoadError
| LMissingField (r : string) | LTransactionMissing (f : string)
| LRawBroadcasted (txid : text) | LBroadcastFailed (status : Z) (body : text)
| LNetworkError
| LWifError | LExplicitFee | LDefaultFee | LSigningFailed
| LLibraryBroadcasted (tx_hex : text)
| LRemoved
| LDetails | LFrom (v : json) | LTo (v : json)
| LAmount (v : json) (btc : Decimal.t) | LFee (v : json) | LSigned (b : bool)
| LBroadcasting | LAttemptRaw | LUsingFallback
| LSuccess | LFailed.

Inductive event : Type :=
| Print (l : line)
| CallRaw (raw_tx_hex : json)                       (* broadcast_raw_transaction entered *)
| HttpPost (data : json)
| CallFallback (transaction wif fee_sats : json)    (* python_fallback_broadcast entered *)
| KeyLoad (wif : json)
| KeySend (wif : json) (outputs : list output_spec) (fee : option json)
| Unlink.

(** A computation: the effects performed, in order, and how it ended. *)
Definition M (A : Type) : Type := list event * result A.

Definition ret {A} (a : A) : M A := ([], Ret a).
Definition raise {A} (e : exn) : M A := ([], Raise e).
Definition emit (e : event) : M unit := ([e], Ret tt).

(** What [print] writes for a value of the record: a [str] as it is;
    for the other values the text of [repr], in which characters that
    cannot be printed are escaped. *)
Definition writable (v : json) : bool :=
  match v with
  | JStr s => encodable s
  | JNull | JBool _ | JInt _ | JList _ | JDict _ => true
  end.

(** Can the line be written to the output stream?  The lines that
    carry a string of the record, of the response or of the library's
    answer can hold a character without encoding; the other lines are
    constants, numbers, or messages of the exceptions the libraries
    raise, which are taken to be printable. *)
Definition printable (l : line) : bool :=
  match l with
  | LFrom v | LTo v | LFee v | LAmount v _ => writable v
  | LRawBroadcasted txid => encodable txid
  | LBroadcastFailed _ body => encodable body
  | LLibraryBroadcasted tx_hex => encodable tx_hex
  | _ => true
  end.

(** [print]: the line is recorded once written in full; a line that
    cannot be encoded raises instead, and is not recorded. *)
Definition print (l : line) : M unit :=
  if printable l then emit (Print l) else raise UnicodeEncodeError.

Definition lift {A} (r : result A) : M A := ([], r).

Definition bind {A B} (m : M A) (k : A -> M B) : M B :=
  match m with
  | (t, Ret a) => let '(t', r) := k a in (t ++ t', r)
  | (t, Raise e) => (t, Raise e)
  end.

Notation "x <- m ;; k" := (bind m (fun x => k))
  (at level 100, m at next level, right associativity).
Notation "m ;;; k" := (bind m (fun _ => k))
  (at level 100, right associativity).

Definition trace {A} (m : M A) : list event := fst m.
Definition outcome {A} (m : M A) : result A := snd m.

Definition is_unlink (e : event) : bool :=
  match e with Unlink => true | _ => false end.

(** The store after a run: the file is gone once an [unlink] succeeded. *)
Definition record_after (w : World) (t : list event) : file_state :=
  if unlink_ok w && existsb is_unlink t then NoFile else pending_file w.

(** The same world with another record in the store. *)
Definition with_record (w : World) (d : gmap string json) : World :=
  mkWorld (Stored (JDict d)) (http_post w) (key_of_wif w) (key_send w)
          (unlink_ok w) (decimal_of_text w).

(** ** The script *)

(** [Decimal(x) / Decimal(100_000_000)] for whatever the record holds
    as [amount_sats]: an [int] (a [bool] is one) converts exactly,
    [None] and a dict are type errors, text is parsed by the library. *)
Definition py_satoshis_to_btc (w : World) (x : json) : result Decimal.t :=
  match x with
  | JInt n => satoshis_to_btc n
  | JBool b => satoshis_to_btc (Z.b2z b)
  | JNull | JDict _ => Raise TypeError
  | JStr _ | JList _ =>
      match decimal_of_text w x with
      | Ret d => Decimal.div d (Decimal.of_int 100000000)
      | Raise e => Raise e
      end
  end.

Definition load_pending_transaction (w : World) : M json :=
  match pending_file w with
  | NoFile => print LNoPending ;;; ret JNull
  | Unreadable => print LLoadError ;;; ret JNull
  | Stored content => ret content
  end.

(** A [for] loop over field names that reports the first name not in
    [obj] and stops there; [true] when the loop runs to its end. *)
Fixpoint all_present (report : string -> line) (fields : list string)
    (obj : json) : M bool :=
  match fields with
  | [] => ret true
  | f :: rest =>
      present <- lift (py_in f obj) ;;
      if negb present then print (report f) ;;; ret false
      else all_present report rest obj
  end.

Definition required : list string :=
  ["transaction"; "private_key_wif"; "address"]%string.

Definition required_tx : list string :=
  ["from_address"; "to_address"; "amount_sats"]%string.

Definition verify_transaction_data (tx_data : json) : M bool :=
  top <- all_present LMissingField required tx_data ;;
  if negb top then ret false
  else
    tx <- lift (py_getitem tx_data "transaction") ;;
    all_present LTransactionMissing required_tx tx.

Definition broadcast_raw_transaction (w : World) (raw_tx_hex : json) : M json :=
  emit (CallRaw raw_tx_hex) ;;;
  emit (HttpPost raw_tx_hex) ;;;
  match http_post w raw_tx_hex with
  | Response status_code body =>
      if status_code =? 200 then
        let txid := strip body in
        print (LRawBroadcasted txid) ;;; ret (JStr txid)
      else
        print (LBroadcastFailed status_code body) ;;; ret JNull
  | RequestException => print LNetworkError ;;; ret JNull
  | OtherFailure => raise OtherError
  end.

Definition python_fallback_broadcast (w : World)
    (transaction wif fee_sats : json) : M json :=
  emit (CallFallback transaction wif fee_sats) ;;;
  emit (KeyLoad wif) ;;;
  if negb (key_of_wif w wif) then print LWifError ;;; ret JNull
  else
    to_address <- lift (py_getitem transaction "to_address") ;;
    amount_sats <- lift (py_getitem transaction "amount_sats") ;;
    btc <- lift (py_satoshis_to_btc w amount_sats) ;;
    let outputs : list output_spec := [(to_address, btc, "btc"%string)] in
    let fee := if truthy fee_sats then Some fee_sats else None in
    print (if truthy fee_sats then LExplicitFee else LDefaultFee) ;;;
    emit (KeySend wif outputs fee) ;;;
    match key_send w wif outputs fee with
    | Sent tx_hex => print (LLibraryBroadcasted tx_hex) ;;; ret (JStr tx_hex)
    | SendRaised => print LSigningFailed ;;; ret JNull
    end.

Definition cleanup_pending (w : World) : M unit :=
  emit Unlink ;;;
  if unlink_ok w then print LRemoved else ret tt.

(** The tail of [main] from "Otherwise use Python fallback". *)
Definition main_fallback (w : World) (tx_data tx : json) : M unit :=
  print LUsingFallback ;;;
  fee <- lift (py_get tx "fee_sats" JNull) ;;
  wif <- lift (py_get tx_data "private_key_wif" JNull) ;;
  txid <- python_fallback_broadcast w tx wif fee ;;
  if truthy txid then cleanup_pending w ;;; print LSuccess
  else print LFailed.

(** The tail of [main] from "If Arduino-signed raw hex provided". *)
Definition main_broadcast (w : World) (tx_data tx : json) : M unit :=
  raw <- lift (py_get tx_data "raw_transaction_hex" JNull) ;;
  if truthy raw then
    print LAttemptRaw ;;;
    raw_tx_hex <- lift (py_getitem tx_data "raw_transaction_hex") ;;
    txid <- broadcast_raw_transaction w raw_tx_hex ;;
    if truthy txid then cleanup_pending w
    else main_fallback w tx_data tx
  else main_fallback w tx_data tx.

Definition main (w : World) : M unit :=
  print LBanner ;;;
  tx_data <- load_pending_transaction w ;;
  if negb (truthy tx_data) then ret tt
  else
    valid <- verify_transaction_data tx_data ;;
    if negb valid then ret tt
    else
      tx <- lift (py_getitem tx_data "transaction") ;;
      sig <- lift (py_get tx_data "signature" JNull) ;;
      print LDetails ;;;
      from_address <- lift (py_getitem tx "from_address") ;;
      print (LFrom from_address) ;;;
      to_address <- lift (py_getitem tx "to_address") ;;
      print (LTo to_address) ;;;
      amount_sats <- lift (py_getitem tx "amount_sats") ;;
      btc <- lift (py_satoshis_to_btc w amount_sats) ;;
      print (LAmount amount_sats btc) ;;;
      fee0 <- lift (py_get tx "fee_sats" (JInt 0)) ;;
      print (LFee fee0) ;;;
      print (LSigned (truthy sig)) ;;;
      print LBroadcasting ;;;
      main_broadcast w tx_data tx.

(** ** Vocabulary of the claims *)

(** The record has the three top-level keys and its [transaction] is an
    object with the three nested keys. *)
Definition structurally_valid (d : gmap string json) : Prop :=
  is_Some (d !! "private_key_wif"%string) /\
  is_Some (d !! "address"%string) /\
  exists t : gmap string json,
    d !! "transaction"%string = Some (JDict t) /\
    is_Some (t !! "from_address"%string) /\
    is_Some (t !! "to_address"%string) /\
    is_Some (t !! "amount_sats"%string).


Definition is_fallback (e : event) : bool :=
  match e with CallFallback _ _ _ | KeyLoad _ | KeySend _ _ _ => true | _ => false end.

Definition is_fallback_call (e : event) : bool :=
  match e with CallFallback _ _ _ => true | _ => false end.

Definition is_post (e : event) : bool :=
  match e with HttpPost _ => true | _ => false end.

Definition is_raw_call (e : event) : bool :=
  match e with CallRaw _ => true | _ => false end.

Definition count (p : event -> bool) (t : list event) : nat :=
  length (List.filter p t).

(** What [main] prints between the banner and the broadcast, for a
    record whose fields are there. *)
Definition details (d t : gmap string json) (from_address to_address
    amount_sats : json) (btc : Decimal.t) : list event :=
  [ Print LBanner; Print LDetails; Print (LFrom from_address);
    Print (LTo to_address); Print (LAmount amount_sats btc);
    Print (LFee (default (JInt 0) (t !! "fee_sats"%string)));
    Print (LSigned (truthy (default JNull (d !! "signature"%string))));
    Print LBroadcasting ].


(** A required field is missing, and [l] is the line reporting the first
    one in the order the validator looks: the three top-level keys, then
    the three names in the [transaction] value, which is an object, a
    list or a string (membership is defined on it). *)
Inductive first_missing (d : gmap string json) : line -> Prop :=
| missing_top (before after : list string) (f : string) :
    required = before ++ f :: after ->
    Forall (fun g => is_Some (d !! g)) before ->
    d !! f = None ->
    first_missing d (LMissingField f)
| missing_nested (tx : json) (before after : list string) (f : string) :
    Forall (fun g => is_Some (d !! g)) required ->
    d !! "transaction"%string = Some tx ->
    required_tx = before ++ f :: after ->
    Forall (fun g => py_in g tx = Ret true) before ->
    py_in f tx = Ret false ->
    first_missing d (LTransactionMissing f).

(** The nested field [f] is not there: the record holds no
    [transaction] object with the key [f]. *)
Definition nested_missing (d : gmap string json) (f : string) : Prop :=
  ~ exists t : gmap string json,
      d !! "transaction"%string = Some (JDict t) /\ is_Some (t !! f).

Definition is_print (e : event) : bool :=
  match e with Print _ => true | _ => false end.

(** ** Records of the scenarios *)

Module Scenario.
Local Open Scope string_scope.

Definition tx (amount_sats : json) : gmap string json :=
  list_to_map [("from_address", JStr (text_of "A")); ("to_address", JStr (text_of "B"));
               ("amount_sats", amount_sats)].

(** The record of the spec's scenarios, without a raw payload. *)
Definition record (amount_sats : json) : gmap string json :=
  list_to_map [("transaction", JDict (tx amount_sats));
               ("private_key_wif", JStr (text_of "K")); ("address", JStr (text_of "A"))].

(** The same record with [to_address] taken out of its transaction. *)
Definition record_without_to : gmap string json :=
  <["transaction" := JDict (delete "to_address" (tx (JInt 1000)))]>
    (record (JInt 1000)).

Definition record_raw (raw : json) : gmap string json :=
  <["raw_transaction_hex" := raw]> (record (JInt 1000)).

(** A world holding [d], whose endpoint answers [answer] and whose
    signing library accepts the key and returns [xyz789]. *)
Definition world (d : gmap string json) (answer : http_outcome) : World :=
  mkWorld (Stored (JDict d)) (fun _ => answer) (fun _ => true)
          (fun _ _ _ => Sent (text_of "xyz789")) true (fun _ => Raise DecimalError).

(** The endpoint accepts the raw payload. *)
Definition world_accepted : World :=
  world (record_raw (JStr (text_of "deadbeef"))) (Response 200 (text_of "abc123")).

(** The endpoint rejects the raw payload. *)
Definition world_rejected : World :=
  world (record_raw (JStr (text_of "deadbeef"))) (Response 500 (text_of "rejected")).

(** The record holds an empty raw payload. *)
Definition world_empty_raw : World :=
  world (record_raw (JStr [])) (Response 200 (text_of "abc123")).


(** No raw payload, and a signing library whose [send] raises. *)
Definition world_send_raises : World :=
  mkWorld (Stored (JDict (record (JInt 1000)))) (fun _ => RequestException)
          (fun _ => true) (fun _ _ _ => SendRaised) true
          (fun _ => Raise DecimalError).

End Scenario.

(** The [fee_sats] argument of the fallback, [int | None]. *)
Definition fee_arg (fee : option Z) : json :=
  match fee with Some n => JInt n | None => JNull end.

Definition is_send (e : event) : bool :=
  match e with KeySend _ _ _ => true | _ => false end.

(** The record's [amount_sats] is something [Decimal] accepts. *)
Definition amount_converts (w : World) (d : gmap string json) : Prop :=
  exists (t : gmap string json) (amount_sats : json) (btc : Decimal.t),
    d !! "transaction"%string = Some (JDict t) /\
    t !! "amount_sats"%string = Some amount_sats /\
    py_satoshis_to_btc w amount_sats = Ret btc.

(** The values [main] prints in the details can be written: the two
    addresses, the amount and the fee shown. *)
Definition fields_printable (d : gmap string json) : Prop :=
  exists t : gmap string json,
    d !! "transaction"%string = Some (JDict t) /\
    writable (default JNull (t !! "from_address"%string)) = true /\
    writable (default JNull (t !! "to_address"%string)) = true /\
    writable (default JNull (t !! "amount_sats"%string)) = true /\
    writable (default (JInt 0) (t !! "fee_sats"%string)) = true.

(** A path reports success to [main] by returning a non-empty
    identifier, which it has printed. *)
Definition nonblank (s : text) : bool :=
  match s with [] => false | _ :: _ => true end.

Definition is_raw_success (e : event) : bool :=
  match e with Print (LRawBroadcasted txid) => nonblank txid | _ => false end.

Definition is_failed (e : event) : bool :=
  match e with Print LFailed => true | _ => false end.

(** Events that end a run's suspense: the unlink, a raw success, the
    final failure line. *)
Definition loud (e : event) : bool :=
  is_unlink e || is_raw_success e || is_failed e.

Definition removed (w : World) : list event :=
  if unlink_ok w then [Print LRemoved] else [].

(** Events that belong to neither ending nor to the fallback. *)
Definition inert (e : event) : bool := negb (loud e || is_fallback e).

(** How a run of the orchestrator, or of one of its tails, can go:
    without unlink and without raw success; or a raw success followed
    at once by the unlink, with no fallback event before; or a library
    success followed by the unlink and the success line. *)
Definition shape (w : World) (m : M unit) : Prop :=
  Forall (fun e => is_unlink e || is_raw_success e = false) (trace m)
  \/ (exists (pre : list event) (raw : json) (txid : text),
        nonblank txid = true /\
        Forall (fun e => inert e = true) pre /\
        m = (pre ++ [CallRaw raw; HttpPost raw; Print (LRawBroadcasted txid);
                     Unlink] ++ removed w, Ret tt))
  \/ (exists (pre : list event) (h : text),
        nonblank h = true /\
        Forall (fun e => loud e = false) pre /\
        In (Print (LLibraryBroadcasted h)) pre /\
        m = (pre ++ Unlink :: removed w ++ [Print LSuccess], Ret tt)).

(** ** Vocabulary of the further properties *)

(** The same world with the pending file in another state. *)
Definition with_file (w : World) (f : file_state) : World :=
  mkWorld f (http_post w) (key_of_wif w) (key_send w) (unlink_ok w)
          (decimal_of_text w).

(** Objects without members ([None], a [bool], an [int]) and sequences
    (a [list], a [str]). *)
Definition is_scalar (x : json) : bool :=
  match x with JNull | JBool _ | JInt _ => true | _ => false end.

Definition is_sequence (x : json) : bool :=
  match x with JList _ | JStr _ => true | _ => false end.

(** The effects of a run on the outside: the request, the send, the
    unlink. *)
Definition is_milestone (e : event) : bool :=
  is_post e || is_send e || is_unlink e.

Definition milestones (t : list event) : list event :=
  List.filter is_milestone t.

Definition starts_with_space (s : text) : bool :=
  match s with
  | [] => false
  | c :: _ => is_space c
  end.

Definition ends_with_space (s : text) : bool :=
  starts_with_space (rev s).

(** The decimal of opposite sign. *)
Definition decimal_opp (d : Decimal.t) : Decimal.t :=
  Decimal.mk (negb (Decimal.sign d)) (Decimal.coeff d) (Decimal.exp d).

(** The same on what an operation gives: a result of opposite sign, or
    the same exception. *)
Definition result_opp (r : result Decimal.t) : result Decimal.t :=
  match r with
  | Ret d => Ret (decimal_opp d)
  | Raise e => Raise e
  end.

(** ** Proof steps *)

(** Structural validity of a concrete record, by evaluation. *)
Ltac valid_by_lookup :=
  split; [eexists; reflexivity|]; split; [eexists; reflexivity|];
  eexists; split; [reflexivity|]; repeat split; eexists; reflexivity.

(** Run the monad on what is already known. *)
Ltac run :=
  try unfold print;
  cbn [bind emit printable lift ret raise trace outcome fst snd app negb].

(** Name the send and the unlink among the effects of a fallback tail. *)
Ltac pick_milestones :=
  first
    [ exists [], []; split; [reflexivity|];
      split; [left; reflexivity|left; reflexivity]
    | eexists [_], []; split; [reflexivity|];
      split; [right; eauto|left; reflexivity]
    | eexists [_], [Unlink]; split; [reflexivity|];
      split; [right; eauto|right; split; [reflexivity|discriminate]] ].

(** ** Facts about the decimal model *)

Section DecimalFacts.
Import Decimal.

Lemma ndigits_aux_le (fuel : nat) :
  forall n k, 0 <= n < 10 ^ k -> 1 <= k -> ndigits_aux fuel n <= k.
Proof.
  induction fuel as [|f IH]; intros n k Hn Hk; cbn [ndigits_aux]; [lia|].
  destruct (Z.ltb_spec n 10) as [Hlt|Hge]; [lia|].
  assert (2 <= k) as Hk2.
  { destruct (Z.eq_dec k 1) as [->|]; [|lia].
    change (10 ^ 1) with 10 in Hn. lia. }
  assert (10 ^ k = 10 * 10 ^ (k - 1)) as Hpow.
  { rewrite <- Z.pow_succ_r by lia. f_equal. lia. }
  specialize (IH (n / 10) (k - 1)).
  assert (0 <= n / 10 < 10 ^ (k - 1)).
  { split; [apply Z.div_pos; lia|].
    apply Z.div_lt_upper_bound; lia. }
  lia.
Qed.

Lemma ndigits_le (n k : Z) : 0 <= n < 10 ^ k -> 1 <= k -> ndigits n <= k.
Proof. apply ndigits_aux_le. Qed.

(** The fuel is enough: [ndigits n] is the number of decimal digits. *)
Lemma ndigits_aux_spec (fuel : nat) :
  forall n, 0 < n < 2 ^ (Z.of_nat fuel + 1) ->
    1 <= ndigits_aux fuel n /\
    10 ^ (ndigits_aux fuel n - 1) <= n < 10 ^ ndigits_aux fuel n.
Proof.
  induction fuel as [|f IH]; intros n Hn; cbn [ndigits_aux].
  - change (2 ^ (Z.of_nat 0 + 1)) with 2 in Hn.
    change (10 ^ (1 - 1)) with 1. change (10 ^ 1) with 10. lia.
  - destruct (Z.ltb_spec n 10) as [Hlt|Hge].
    + change (10 ^ (1 - 1)) with 1. change (10 ^ 1) with 10. lia.
    + assert (2 ^ (Z.of_nat (S f) + 1) = 2 * 2 ^ (Z.of_nat f + 1)) as Hpow.
      { rewrite <- Z.pow_succ_r by lia. f_equal. lia. }
      assert (0 < 2 ^ (Z.of_nat f + 1)) by (apply Z.pow_pos_nonneg; lia).
      assert (0 < n / 10 < 2 ^ (Z.of_nat f + 1)) as Hq.
      { split; [apply Z.div_str_pos; lia|].
        apply Z.div_lt_upper_bound; lia. }
      destruct (IH (n / 10) Hq) as (Hk & Hlo & Hhi).
      set (k := ndigits_aux f (n / 10)) in *.
      replace (1 + k - 1) with (Z.succ (k - 1)) by lia.
      replace (1 + k) with (Z.succ k) by lia.
      rewrite !Z.pow_succ_r by lia.
      pose proof (Z.div_mod n 10 ltac:(lia)) as Hdm.
      pose proof (Z.mod_pos_bound n 10 ltac:(lia)) as Hm.
      lia.
Qed.

Lemma ndigits_spec (n : Z) :
  0 < n -> 10 ^ (ndigits n - 1) <= n < 10 ^ ndigits n.
Proof.
  intros Hn. unfold ndigits.
  apply ndigits_aux_spec. split; [exact Hn|].
  rewrite Z2Nat.id by (apply Z.log2_nonneg).
  replace (Z.log2 n + 1) with (Z.succ (Z.log2 n)) by lia.
  apply Z.log2_spec. exact Hn.
Qed.

Lemma strip_zeros_spec (fuel : nat) :
  forall c e ideal c' e',
    strip_zeros fuel c e ideal = (c', e') ->
    Z.of_nat fuel = ideal - e ->
    0 < c ->
    e <= e' <= ideal /\ c = c' * 10 ^ (e' - e) /\ 0 < c' /\
    (e' = ideal \/ c' mod 10 <> 0).
Proof.
  induction fuel as [|f IH]; intros c e ideal c' e' Hs Hf Hc;
    cbn [strip_zeros] in Hs.
  - injection Hs as <- <-. rewrite Z.sub_diag. change (10 ^ 0) with 1. lia.
  - destruct (Z.ltb_spec e ideal) as [Hlt|Hge]; [|lia].
    destruct (Z.eqb_spec (c mod 10) 0) as [Hm|Hm]; cbn [andb] in Hs.
    + assert (c = 10 * (c / 10)) as Hc10.
      { pose proof (Z.div_mod c 10). lia. }
      apply IH in Hs; [|lia|lia].
      destruct Hs as (He & Hcc & Hpos & Hstop).
      split; [lia|]. split; [|split; [exact Hpos|exact Hstop]].
      replace (e' - e) with (Z.succ (e' - (e + 1))) by lia.
      rewrite Z.pow_succ_r by lia. lia.
    + injection Hs as <- <-. rewrite Z.sub_diag. change (10 ^ 0) with 1.
      split; [lia|]. split; [lia|]. split; [lia|]. right; exact Hm.
Qed.

Lemma ndigits_pos (n : Z) : 1 <= ndigits n.
Proof.
  unfold ndigits. destruct (Z.to_nat (Z.log2 n)) as [|f]; cbn [ndigits_aux];
    [lia|].
  destruct (n <? 10); [lia|].
  assert (forall g m, 1 <= ndigits_aux g m) as H.
  { induction g as [|g IH]; intros m; cbn [ndigits_aux]; [lia|].
    destruct (m <? 10); [lia|]. specialize (IH (m / 10)). lia. }
  specialize (H f (n / 10)). lia.
Qed.

(** A coefficient that fits the precision, with an exponent in range,
    is left alone by [_fix]. *)
Lemma fix_small (s : bool) (c e : Z) :
  0 < c < 10 ^ prec -> Etiny <= e <= 0 ->
  fix_ (mk s c e) = Ret (mk s c e).
Proof.
  intros Hc He. unfold fix_; cbn [coeff exp sign].
  destruct (Z.eqb_spec c 0); [lia|].
  pose proof (ndigits_le c prec ltac:(lia) ltac:(unfold prec; lia)).
  unfold Etop, Etiny, Emax, Emin in *.
  destruct (Z.ltb_spec (999999 - prec + 1) (ndigits c + e - prec));
    [unfold prec in *; lia|].
  destruct (Z.ltb_spec e (Z.max (ndigits c + e - prec) (-999999 - prec + 1)));
    [lia|reflexivity].
Qed.

End DecimalFacts.

Section SatoshisFacts.
Import Decimal.

(** The value of [satoshis_to_btc] below the context precision, with the
    representation the division picks: the quotient is exact, its
    trailing zeros are dropped, and [_fix] neither rounds nor
    overflows. *)
Lemma satoshis_to_btc_repr (n : Z) :
  0 < n < 10 ^ 28 ->
  exists c e,
    satoshis_to_btc n = Ret (mk false c e) /\
    e <= 0 /\ 0 < c /\ c * 100000000 = n * 10 ^ (- e).
Proof.
  intros Hn. unfold satoshis_to_btc, div, of_int.
  cbn [coeff exp sign].
  replace (n <? 0) with false by (symmetry; apply Z.ltb_ge; lia).
  change (100000000 <? 0) with false. cbn [xorb].
  rewrite (Z.abs_eq n) by lia.
  change (Z.abs 100000000) with 100000000.
  change (100000000 =? 0) with false. cbv iota.
  change (ndigits 100000000) with 9.
  destruct (Z.eqb_spec n 0) as [|_]; [lia|].
  pose proof (ndigits_le n 28 ltac:(lia) ltac:(lia)) as Hd.
  pose proof (ndigits_pos n) as Hd1.
  unfold prec in *.
  set (shift := 9 - ndigits n + 28 + 1) in *.
  assert (10 <= shift <= 37) as Hshift by (subst shift; lia).
  replace (0 <=? shift) with true by (symmetry; apply Z.leb_le; lia).
  assert (10 ^ shift = 10 ^ (shift - 8) * 100000000) as Hsplit.
  { change 100000000 with (10 ^ 8). rewrite <- Z.pow_add_r by lia.
    f_equal. lia. }
  assert (0 < 10 ^ (shift - 8)) as Hp by (apply Z.pow_pos_nonneg; lia).
  assert (n * 10 ^ shift = n * 10 ^ (shift - 8) * 100000000) as Hnum by lia.
  rewrite Hnum, Z.mod_mul, Z.div_mul by lia.
  change (0 =? 0) with true. cbv iota.
  destruct (strip_zeros _ _ _ _) as [c e'] eqn:Hs.
  apply strip_zeros_spec in Hs; [|lia|nia].
  destruct Hs as (He & Hc & Hpos & Hstop).
  replace (e' - (0 - 0 - shift)) with (e' + shift) in Hc by lia.
  (* c * 10^8 = n * 10^(-e') *)
  assert (c * 100000000 = n * 10 ^ (- e')) as Hval.
  { assert (0 < 10 ^ (e' + shift)) as Hq by (apply Z.pow_pos_nonneg; lia).
    assert (10 ^ shift = 10 ^ (- e') * 10 ^ (e' + shift)) as Hs2.
    { rewrite <- Z.pow_add_r by lia. f_equal. lia. }
    apply (Z.mul_cancel_r _ _ (10 ^ (e' + shift))); [lia|].
    rewrite Hs2 in Hnum. lia. }
  (* the stripped coefficient is at most n *)
  assert (c <= n) as Hle.
  { destruct (Z.le_gt_cases (- e') 8) as [Hsmall|Hbig].
    - assert (100000000 = 10 ^ (- e') * 10 ^ (8 + e')) as H8.
      { rewrite <- Z.pow_add_r by lia. replace (- e' + (8 + e')) with 8 by lia.
        reflexivity. }
      assert (0 < 10 ^ (- e')) by (apply Z.pow_pos_nonneg; lia).
      assert (0 < 10 ^ (8 + e')) by (apply Z.pow_pos_nonneg; lia).
      assert (c * 10 ^ (8 + e') = n) by nia.
      nia.
    - exfalso. destruct Hstop as [->|Hmod]; [lia|]. apply Hmod.
      assert (10 ^ (- e') = 10 * 10 ^ (- e' - 9) * 100000000) as H9.
      { change 100000000 with (10 ^ 8).
        rewrite <- Z.pow_succ_r, <- Z.pow_add_r by lia. f_equal. lia. }
      assert (c = n * 10 ^ (- e' - 9) * 10) as -> by nia.
      apply Z.mod_mul. lia. }
  exists c, e'. rewrite fix_small;
    [|unfold prec; lia|unfold Etiny, Emin, prec; lia].
  repeat (split; [first [reflexivity|lia]|]). exact Hval.
Qed.

End SatoshisFacts.

Section SatoshisClaims.
Import Decimal.

(** C7, counterexample: the division is carried out under the default
    context of 28 significant digits, so [10^28 + 1] satoshis, a
    29-digit quotient, are rounded (to [1.000000000000000000000000000E+20])
    and the result is not the rational [n / 100000000]. *)
Lemma C7_not_exact_above_precision :
  ~ (forall n : Z, 0 <= n ->
       exists d, satoshis_to_btc n = Ret d /\
                 Qeq (to_Q d) (Qmake n 100000000)).
Proof.
  intros H. destruct (H (10 ^ 28 + 1) ltac:(lia)) as (d & Hd & Hq).
  vm_compute in Hd. injection Hd as <-.
  vm_compute in Hq. discriminate Hq.
Qed.

(** C7, amended: for every integer [0 <= n < 10^28] the conversion
    returns a decimal whose value is exactly the rational
    [n / 100000000]; 150000 gives 0.0015, 1 gives 0.00000001 and
    100000000 gives 1. *)
Theorem C7_satoshis_to_btc_exact (n : Z) :
  0 <= n < 10 ^ 28 ->
  (exists d, satoshis_to_btc n = Ret d /\
             Qeq (to_Q d) (Qmake n 100000000)) /\
  satoshis_to_btc 150000 = Ret (mk false 15 (-4)) /\
  satoshis_to_btc 1 = Ret (mk false 1 (-8)) /\
  satoshis_to_btc 100000000 = Ret (mk false 1 0).
Proof.
  intros Hn. split; [|repeat split; vm_compute; reflexivity].
  destruct (Z.eq_dec n 0) as [->|Hnz].
  { exists (mk false 0 0). split; vm_compute; reflexivity. }
  destruct (satoshis_to_btc_repr n ltac:(lia)) as (c & e & -> & He & Hc & Hv).
  exists (mk false c e). split; [reflexivity|].
  unfold to_Q, Qeq; cbn [sign coeff exp Qnum Qden inject_Z].
  destruct (Z.leb_spec 0 e) as [H0|Hneg]; cbn [Qnum Qden].
  - replace e with 0 in * by lia. change (- 0) with 0 in Hv.
    change (10 ^ 0) with 1 in *. unfold inject_Z; cbn [Qnum Qden]. lia.
  - rewrite Z2Pos.id by (apply Z.pow_pos_nonneg; lia). lia.
Qed.

Lemma C7_satoshis_to_btc_exact_witness :
  (exists d, satoshis_to_btc 150000 = Ret d /\
             Qeq (to_Q d) (Qmake 150000 100000000)) /\
  satoshis_to_btc 150000 = Ret (mk false 15 (-4)) /\
  satoshis_to_btc 1 = Ret (mk false 1 (-8)) /\
  satoshis_to_btc 100000000 = Ret (mk false 1 0).
Proof.
  apply (C7_satoshis_to_btc_exact 150000). split; [lia|reflexivity].
Defined.

End SatoshisClaims.

(** ** Facts about the script *)

Section ScriptFacts.

Lemma bind_ret_l {A B} (a : A) (k : A -> M B) : bind (ret a) k = k a.
Proof. unfold bind, ret. destruct (k a) as [t r]. reflexivity. Qed.

Lemma bind_lift_ret {A B} (a : A) (k : A -> M B) : bind (lift (Ret a)) k = k a.
Proof. apply bind_ret_l. Qed.

Lemma bind_emit {B} (e : event) (k : unit -> M B) :
  bind (emit e) k = (e :: trace (k tt), outcome (k tt)).
Proof. unfold bind, emit, trace, outcome. destruct (k tt). reflexivity. Qed.

Lemma print_ok (l : line) : printable l = true -> print l = emit (Print l).
Proof. intros H. unfold print. rewrite H. reflexivity. Qed.

Lemma print_fails (l : line) :
  printable l = false -> print l = raise UnicodeEncodeError.
Proof. intros H. unfold print. rewrite H. reflexivity. Qed.

Lemma count_app (p : event -> bool) (t1 t2 : list event) :
  count p (t1 ++ t2) = (count p t1 + count p t2)%nat.
Proof. unfold count. rewrite List.filter_app, List.length_app. reflexivity. Qed.

Lemma truthy_dict (d : gmap string json) (k : string) :
  is_Some (d !! k) -> truthy (JDict d) = true.
Proof.
  intros [v Hv]; cbn [truthy].
  destruct (map_to_list d) as [|x l] eqn:Hl; [|reflexivity].
  apply map_to_list_empty_iff in Hl; subst d.
  rewrite lookup_empty in Hv; discriminate.
Qed.

Lemma py_in_dict_present (d : gmap string json) (k : string) :
  is_Some (d !! k) -> py_in k (JDict d) = Ret true.
Proof. intros H. cbn [py_in]. rewrite bool_decide_eq_true_2; done. Qed.

Lemma py_in_dict_absent (d : gmap string json) (k : string) :
  d !! k = None -> py_in k (JDict d) = Ret false.
Proof.
  intros H. cbn [py_in]. rewrite bool_decide_eq_false_2; [done|].
  rewrite H. intros [? ?]; discriminate.
Qed.

(** The loop runs to its end when every name is in the object. *)
Lemma all_present_in (report : string -> line) (fields : list string)
    (obj : json) :
  Forall (fun f => py_in f obj = Ret true) fields ->
  all_present report fields obj = ret true.
Proof.
  induction 1 as [|f rest Hf _ IH]; cbn [all_present]; [reflexivity|].
  rewrite Hf, bind_lift_ret. exact IH.
Qed.

Lemma all_present_all (report : string -> line) (fields : list string)
    (d : gmap string json) :
  Forall (fun f => is_Some (d !! f)) fields ->
  all_present report fields (JDict d) = ret true.
Proof.
  intros H. apply all_present_in.
  eapply Forall_impl; [exact H|]. intros f Hf. exact (py_in_dict_present d f Hf).
Qed.

(** The loop stops at the first name that is not in the object,
    reporting it alone. *)
Lemma all_present_first_absent (report : string -> line)
    (before after : list string) (f : string) (obj : json) :
  printable (report f) = true ->
  Forall (fun g => py_in g obj = Ret true) before ->
  py_in f obj = Ret false ->
  all_present report (before ++ f :: after) obj
  = ([Print (report f)], Ret false).
Proof.
  intros Hpr. induction 1 as [|g rest Hg _ IH]; intros Hf; cbn [all_present app].
  - rewrite Hf, bind_lift_ret. cbn [negb]. rewrite (print_ok _ Hpr). reflexivity.
  - rewrite Hg, bind_lift_ret. exact (IH Hf).
Qed.

Lemma verify_valid (d : gmap string json) :
  structurally_valid d -> verify_transaction_data (JDict d) = ret true.
Proof.
  intros (Hw & Ha & t & Ht & Hf & Hto & Hamt).
  unfold verify_transaction_data.
  rewrite all_present_all, bind_ret_l.
  2:{ unfold required. repeat constructor; try assumption.
      rewrite Ht; eexists; reflexivity. }
  cbn [negb py_getitem]. rewrite Ht, bind_lift_ret.
  apply all_present_all. unfold required_tx. repeat constructor; assumption.
Qed.

End ScriptFacts.

(** ** The validator *)

Section Validator.

(** C9: a record holding the three top-level keys whose [transaction]
    object holds the three nested keys is accepted by the validator,
    silently, whatever the values are; a negative [amount_sats] is
    accepted too. *)
Theorem C9_validator_checks_presence_only (d : gmap string json) :
  structurally_valid d ->
  verify_transaction_data (JDict d) = ([], Ret true).
Proof. exact (verify_valid d). Qed.

Lemma C9_validator_accepts_negative_amount :
  structurally_valid (Scenario.record (JInt (-5))) /\
  verify_transaction_data (JDict (Scenario.record (JInt (-5)))) = ([], Ret true).
Proof.
  split; [valid_by_lookup|].
  apply (C9_validator_checks_presence_only (Scenario.record (JInt (-5)))).
  valid_by_lookup.
Defined.

Lemma verify_first_missing (d : gmap string json) (l : line) :
  first_missing d l ->
  verify_transaction_data (JDict d) = ([Print l], Ret false).
Proof.
  intros [before after f Hreq Hbefore Hf | tx before after f Hall Ht Hreq Hbefore Hf];
    unfold verify_transaction_data.
  - rewrite Hreq.
    rewrite (all_present_first_absent LMissingField before after f (JDict d));
      [reflexivity|reflexivity| |exact (py_in_dict_absent d f Hf)].
    eapply Forall_impl; [exact Hbefore|].
    intros g Hg. exact (py_in_dict_present d g Hg).
  - rewrite (all_present_all _ _ _ Hall), bind_ret_l.
    cbn [negb py_getitem]. rewrite Ht, bind_lift_ret, Hreq.
    apply all_present_first_absent; [reflexivity|assumption|assumption].
Qed.

(** Outside the claims: membership in a [transaction] that is not a
    container is a type error, which the validator does not catch. *)
Lemma verify_transaction_not_iterable (d : gmap string json) :
  Forall (fun g => is_Some (d !! g)) required ->
  d !! "transaction"%string = Some JNull ->
  verify_transaction_data (JDict d) = ([], Raise TypeError).
Proof.
  intros Hall Ht. unfold verify_transaction_data.
  rewrite (all_present_all _ _ _ Hall), bind_ret_l.
  cbn [negb py_getitem]. rewrite Ht. reflexivity.
Qed.

Lemma record_after_prints (w : World) (t : list event) :
  Forall (fun e => is_print e = true) t -> record_after w t = pending_file w.
Proof.
  intros H. unfold record_after.
  replace (existsb is_unlink t) with false; [rewrite andb_false_r; reflexivity|].
  symmetry. induction H as [|e t He _ IH]; [reflexivity|].
  cbn [existsb]. rewrite IH. destruct e; try discriminate He; reflexivity.
Qed.

(** C4, counterexample: in a record with the three top-level keys whose
    [transaction] is [null] the nested fields are missing, yet the
    validator does not return false: the membership test raises
    [TypeError]. *)
Lemma C4_null_transaction_raises :
  ~ (forall (d : gmap string json) (f : string),
       Forall (fun g => is_Some (d !! g)) required ->
       In f required_tx ->
       nested_missing d f ->
       outcome (verify_transaction_data (JDict d)) = Ret false).
Proof.
  intros H.
  specialize (H (<["transaction"%string := JNull]> (Scenario.record (JInt 1000)))
                "to_address"%string).
  assert (outcome (verify_transaction_data
                     (JDict (<["transaction"%string := JNull]>
                               (Scenario.record (JInt 1000))))) = Ret false) as E.
  { apply H.
    - repeat constructor; eexists; reflexivity.
    - right; left; reflexivity.
    - intros (t & Ht & _). vm_compute in Ht. discriminate Ht. }
  vm_compute in E. discriminate E.
Qed.

(** C4, amended: when a top-level field is missing, or the
    [transaction] is an object, a list or a string that lacks one of
    the nested names, the validator prints the line naming the first
    missing one, and nothing else, and returns false; a run of [main] on
    such a record ends normally having done nothing but print: no
    request, no key, no send, no unlink, and the record is still in the
    store. *)
Theorem C4_missing_field_fails_fast (d : gmap string json) (l : line) :
  first_missing d l ->
  verify_transaction_data (JDict d) = ([Print l], Ret false) /\
  forall w : World,
    pending_file w = Stored (JDict d) ->
    Forall (fun e => is_print e = true) (trace (main w)) /\
    outcome (main w) = Ret tt /\
    record_after w (trace (main w)) = pending_file w.
Proof.
  intros Hm. pose proof (verify_first_missing d l Hm) as Hv.
  split; [exact Hv|]. intros w Hw.
  assert (main w = ([Print LBanner], Ret tt) \/
          main w = ([Print LBanner; Print l], Ret tt)) as Hmain.
  { unfold main, load_pending_transaction. rewrite Hw.
    rewrite (print_ok LBanner eq_refl), bind_emit, bind_ret_l.
    destruct (truthy (JDict d)); cbn [negb]; [right|left; reflexivity].
    rewrite Hv. reflexivity. }
  assert (Forall (fun e => is_print e = true) (trace (main w))) as Hp.
  { destruct Hmain as [-> | ->]; repeat constructor. }
  split; [exact Hp|]. split; [destruct Hmain as [-> | ->]; reflexivity|].
  apply record_after_prints, Hp.
Qed.

Lemma C4_missing_to_address :
  first_missing Scenario.record_without_to (LTransactionMissing "to_address") /\
  verify_transaction_data (JDict Scenario.record_without_to)
  = ([Print (LTransactionMissing "to_address")], Ret false) /\
  forall w : World,
    pending_file w = Stored (JDict Scenario.record_without_to) ->
    Forall (fun e => is_print e = true) (trace (main w)) /\
    outcome (main w) = Ret tt /\
    record_after w (trace (main w)) = pending_file w.
Proof.
  assert (first_missing Scenario.record_without_to
            (LTransactionMissing "to_address")) as H.
  { apply (missing_nested _
             (JDict (delete "to_address"%string (Scenario.tx (JInt 1000))))
             ["from_address"%string] ["amount_sats"%string]).
    - repeat constructor; eexists; reflexivity.
    - reflexivity.
    - reflexivity.
    - repeat constructor.
    - reflexivity. }
  split; [exact H|].
  exact (C4_missing_field_fails_fast Scenario.record_without_to _ H).
Defined.

End Validator.

(** ** The raw broadcaster *)

Section RawBroadcaster.
Variable w : World.
Variable raw : json.

Lemma raw_200 (body : text) :
  http_post w raw = Response 200 body ->
  encodable (strip body) = true ->
  broadcast_raw_transaction w raw
  = ([CallRaw raw; HttpPost raw; Print (LRawBroadcasted (strip body))],
     Ret (JStr (strip body))).
Proof.
  intros H He. unfold broadcast_raw_transaction. rewrite H, Z.eqb_refl.
  cbv zeta. run. rewrite He. reflexivity.
Qed.

Lemma raw_200_unprintable (body : text) :
  http_post w raw = Response 200 body ->
  encodable (strip body) = false ->
  broadcast_raw_transaction w raw
  = ([CallRaw raw; HttpPost raw], Raise UnicodeEncodeError).
Proof.
  intros H He. unfold broadcast_raw_transaction. rewrite H, Z.eqb_refl.
  cbv zeta. run. rewrite He. reflexivity.
Qed.

Lemma raw_not_200 (status : Z) (body : text) :
  http_post w raw = Response status body -> status <> 200 ->
  broadcast_raw_transaction w raw
  = if encodable body
    then ([CallRaw raw; HttpPost raw; Print (LBroadcastFailed status body)],
          Ret JNull)
    else ([CallRaw raw; HttpPost raw], Raise UnicodeEncodeError).
Proof.
  intros H Hs. unfold broadcast_raw_transaction. rewrite H.
  destruct (Z.eqb_spec status 200); [contradiction|]. run.
  destruct (encodable body); reflexivity.
Qed.

Lemma raw_request_exception :
  http_post w raw = RequestException ->
  broadcast_raw_transaction w raw
  = ([CallRaw raw; HttpPost raw; Print LNetworkError], Ret JNull).
Proof. intros H. unfold broadcast_raw_transaction. rewrite H. reflexivity. Qed.

(** Whatever the endpoint does, the broadcaster posts once and
    otherwise prints. *)
Lemma raw_trace_shape :
  exists rest,
    trace (broadcast_raw_transaction w raw) = CallRaw raw :: HttpPost raw :: rest /\
    Forall (fun e => is_print e = true) rest.
Proof.
  unfold broadcast_raw_transaction.
  destruct (http_post w raw) as [status body| |] eqn:H; run.
  - destruct (Z.eqb_spec status 200); run.
    + destruct (encodable (strip body));
        eexists; (split; [reflexivity|repeat constructor]).
    + destruct (encodable body);
        eexists; (split; [reflexivity|repeat constructor]).
  - eexists; (split; [reflexivity|repeat constructor]).
  - eexists; (split; [reflexivity|repeat constructor]).
Qed.

End RawBroadcaster.

(** C3, counterexample: a 201 answer is a success status, yet the
    broadcaster, which compares the status with 200, prints the failure
    line and returns [None]. *)
Lemma C3_status_201_is_rejected :
  ~ (forall (w : World) (raw : json) (status : Z) (body : text),
       http_post w raw = Response status body ->
       (outcome (broadcast_raw_transaction w raw) = Ret (JStr (strip body))
        <-> 200 <= status <= 299)).
Proof.
  intros H.
  specialize (H (Scenario.world (Scenario.record_raw (JStr (text_of "deadbeef")))
                   (Response 201 (text_of "abc123")))
                (JStr (text_of "deadbeef")) 201 (text_of "abc123") eq_refl).
  destruct H as [_ H]. specialize (H ltac:(lia)).
  vm_compute in H. discriminate H.
Qed.

(** C3, amended: the broadcaster returns the response body stripped of
    surrounding whitespace, unchecked, only when the status code is
    200, and then it does so whenever the stripped body can be written
    to the output stream (printing it raises [UnicodeEncodeError]
    otherwise); every other status code, with a body that can be
    written, and every [RequestException] give [None]; in each case one
    request is posted. *)
Theorem C3_raw_success_is_status_200 (w : World) (raw : json) :
  (forall (status : Z) (body : text),
     http_post w raw = Response status body ->
     (outcome (broadcast_raw_transaction w raw) = Ret (JStr (strip body))
      -> status = 200) /\
     (status = 200 ->
      outcome (broadcast_raw_transaction w raw)
      = if encodable (strip body) then Ret (JStr (strip body))
        else Raise UnicodeEncodeError) /\
     (status <> 200 ->
      outcome (broadcast_raw_transaction w raw)
      = if encodable body then Ret JNull else Raise UnicodeEncodeError)) /\
  (http_post w raw = RequestException ->
   outcome (broadcast_raw_transaction w raw) = Ret JNull) /\
  count is_post (trace (broadcast_raw_transaction w raw)) = 1%nat.
Proof.
  split; [|split].
  - intros status body H. split; [|split].
    + intros Hout. destruct (Z.eq_dec status 200) as [|Hne]; [assumption|].
      rewrite (raw_not_200 w raw status body H Hne) in Hout.
      destruct (encodable body); discriminate Hout.
    + intros ->. destruct (encodable (strip body)) eqn:He.
      * rewrite (raw_200 w raw body H He). reflexivity.
      * rewrite (raw_200_unprintable w raw body H He). reflexivity.
    + intros Hne. rewrite (raw_not_200 w raw status body H Hne).
      destruct (encodable body); reflexivity.
  - intros H. rewrite (raw_request_exception w raw H). reflexivity.
  - destruct (raw_trace_shape w raw) as (rest & -> & Hrest).
    unfold count. cbn [List.filter is_post length]. f_equal.
    induction Hrest as [|e rest He _ IH]; [reflexivity|].
    cbn [List.filter]. destruct e; try discriminate He. exact IH.
Qed.

Lemma C3_status_200_witness :
  outcome (broadcast_raw_transaction
             (Scenario.world (Scenario.record_raw (JStr (text_of "deadbeef")))
                (Response 200 (160%N :: text_of "abc123" ++ [10%N])))
             (JStr (text_of "deadbeef")))
  = Ret (JStr (text_of "abc123")) /\
  count is_post
    (trace (broadcast_raw_transaction
              (Scenario.world (Scenario.record_raw (JStr (text_of "deadbeef")))
                 (Response 200 (160%N :: text_of "abc123" ++ [10%N])))
              (JStr (text_of "deadbeef")))) = 1%nat.
Proof.
  destruct (C3_raw_success_is_status_200
              (Scenario.world (Scenario.record_raw (JStr (text_of "deadbeef")))
                 (Response 200 (160%N :: text_of "abc123" ++ [10%N])))
              (JStr (text_of "deadbeef")))
    as (Hresponse & _ & Hone).
  destruct (Hresponse 200 (160%N :: text_of "abc123" ++ [10%N]) eq_refl)
    as (_ & H200 & _).
  split; [exact (H200 eq_refl)|exact Hone].
Defined.

(** ** The fallback signer-broadcaster *)

Section Fallback.
Variable w : World.


Lemma fallback_sends (t : gmap string json) (wif fee_sats to_address
    amount_sats : json) (btc : Decimal.t) :
  key_of_wif w wif = true ->
  t !! "to_address"%string = Some to_address ->
  t !! "amount_sats"%string = Some amount_sats ->
  py_satoshis_to_btc w amount_sats = Ret btc ->
  let outputs : list output_spec := [(to_address, btc, "btc"%string)] in
  let fee := if truthy fee_sats then Some fee_sats else None in
  let sent := [CallFallback (JDict t) wif fee_sats; KeyLoad wif;
               Print (if truthy fee_sats then LExplicitFee else LDefaultFee);
               KeySend wif outputs fee] in
  python_fallback_broadcast w (JDict t) wif fee_sats
  = match key_send w wif outputs fee with
    | Sent tx_hex =>
        if encodable tx_hex
        then (sent ++ [Print (LLibraryBroadcasted tx_hex)], Ret (JStr tx_hex))
        else (sent, Raise UnicodeEncodeError)
    | SendRaised => (sent ++ [Print LSigningFailed], Ret JNull)
    end.
Proof.
  intros Hk Hto Hamt Hbtc outputs fee sent.
  unfold python_fallback_broadcast. rewrite Hk. cbn [negb py_getitem].
  rewrite Hto, bind_lift_ret, Hamt, bind_lift_ret, Hbtc, bind_lift_ret.
  fold outputs. fold fee. subst sent.
  destruct (key_send w wif outputs fee) as [h|]; run.
  - destruct (truthy fee_sats), (encodable h); reflexivity.
  - destruct (truthy fee_sats); reflexivity.
Qed.

End Fallback.



(** C6: with a key that loads and an amount that converts, the fallback
    calls [send] once; with a fee override that is present and not zero
    the call carries it as an absolute fee, with the override absent or
    zero the call carries no fee. *)
Theorem C6_fee_override (w : World) (t : gmap string json)
    (wif to_address amount_sats : json) (btc : Decimal.t) (fee : option Z) :
  key_of_wif w wif = true ->
  t !! "to_address"%string = Some to_address ->
  t !! "amount_sats"%string = Some amount_sats ->
  py_satoshis_to_btc w amount_sats = Ret btc ->
  List.filter is_send
    (trace (python_fallback_broadcast w (JDict t) wif (fee_arg fee)))
  = [KeySend wif [(to_address, btc, "btc"%string)]
       match fee with
       | Some n => if n =? 0 then None else Some (JInt n)
       | None => None
       end].
Proof.
  intros Hk Hto Hamt Hbtc.
  rewrite (fallback_sends w t wif (fee_arg fee) _ _ _ Hk Hto Hamt Hbtc).
  destruct fee as [n|]; cbn [fee_arg truthy].
  - destruct (n =? 0); cbn [negb];
      destruct (key_send w wif _ _) as [h|]; try destruct (encodable h);
      reflexivity.
  - destruct (key_send w wif _ _) as [h|]; try destruct (encodable h);
      reflexivity.
Qed.

Lemma C6_fee_override_witness :
  List.filter is_send
    (trace (python_fallback_broadcast
              (Scenario.world (Scenario.record (JInt 1000)) RequestException)
              (JDict (Scenario.tx (JInt 1000)))
              (JStr (text_of "K")) (fee_arg (Some 250))))
  = [KeySend (JStr (text_of "K"))
       [(JStr (text_of "B"), Decimal.mk false 1 (-5), "btc"%string)]
       (Some (JInt 250))].
Proof.
  apply (C6_fee_override
           (Scenario.world (Scenario.record (JInt 1000)) RequestException)
           (Scenario.tx (JInt 1000)) (JStr (text_of "K")) (JStr (text_of "B"))
           (JInt 1000) (Decimal.mk false 1 (-5)) (Some 250));
    reflexivity.
Defined.

(** ** Shapes of a run *)

Section Shapes.
Variable w : World.

Lemma cleanup_eq :
  cleanup_pending w = (Unlink :: removed w, Ret tt).
Proof.
  unfold cleanup_pending, removed. run. destruct (unlink_ok w); reflexivity.
Qed.

Lemma nonblank_ne (s : text) : nonblank s = true -> s <> [].
Proof. intros H ->. discriminate H. Qed.

(** The fallback never unlinks and never prints a raw success or the
    final failure line; a truthy result has been printed as a library
    success. *)
Lemma fallback_shape (transaction wif fee_sats : json) :
  let p := python_fallback_broadcast w transaction wif fee_sats in
  Forall (fun e => loud e = false) (trace p) /\
  count is_fallback_call (trace p) = 1%nat /\
  forall txid, outcome p = Ret txid -> truthy txid = true ->
    exists h, h <> [] /\ In (Print (LLibraryBroadcasted h)) (trace p).
Proof.
  unfold python_fallback_broadcast. run.
  destruct (key_of_wif w wif); run.
  2:{ split; [repeat constructor|]. split; [reflexivity|].
      intros txid [= <-] H. discriminate H. }
  destruct (py_getitem transaction "to_address") as [to|e]; run.
  2:{ split; [repeat constructor|]. split; [reflexivity|]. intros ? [=]. }
  destruct (py_getitem transaction "amount_sats") as [amt|e]; run.
  2:{ split; [repeat constructor|]. split; [reflexivity|]. intros ? [=]. }
  destruct (py_satoshis_to_btc w amt) as [btc|e]; run.
  2:{ split; [repeat constructor|]. split; [reflexivity|]. intros ? [=]. }
  destruct (truthy fee_sats); run;
    (destruct (key_send w wif _ _) as [h|]; run;
     [destruct (encodable h); run|]).
  all: split; [repeat constructor|]; split; [reflexivity|].
  all: try (intros txid [= <-] H; exists h; split; [exact (nonblank_ne h H)|];
            right; right; right; right; left; reflexivity).
  all: try (intros txid [= <-] H; discriminate H).
  all: intros ? [=].
Qed.


Lemma inert_calm (e : event) :
  inert e = true -> is_unlink e || is_raw_success e = false.
Proof.
  unfold inert, loud.
  destruct (is_unlink e), (is_raw_success e); cbn [orb negb];
    first [discriminate|reflexivity].
Qed.

Lemma inert_quiet (e : event) : inert e = true -> loud e = false.
Proof.
  unfold inert. destruct (loud e); [discriminate|reflexivity].
Qed.

Lemma quiet_calm (e : event) :
  loud e = false -> is_unlink e || is_raw_success e = false.
Proof.
  unfold loud. destruct (is_unlink e || is_raw_success e); [discriminate|reflexivity].
Qed.

(** A shape survives an inert prefix. *)
Lemma shape_prefix (pre0 : list event) (m : M unit) :
  Forall (fun e => inert e = true) pre0 ->
  shape w m -> shape w (pre0 ++ trace m, outcome m).
Proof.
  intros Hpre [Hcalm | [(pre & raw & txid & Hn & Hp & ->) | (pre & h & Hn & Hp & Hin & ->)]].
  - left. cbn [trace fst]. apply Forall_app. split; [|exact Hcalm].
    eapply Forall_impl; [exact Hpre|]. exact inert_calm.
  - right; left. exists (pre0 ++ pre), raw, txid.
    split; [exact Hn|]. split; [apply Forall_app; split; assumption|].
    cbn [trace outcome fst snd]. rewrite <- app_assoc. reflexivity.
  - right; right. exists (pre0 ++ pre), h.
    split; [exact Hn|]. split.
    { apply Forall_app; split; [|exact Hp].
      eapply Forall_impl; [exact Hpre|]. exact inert_quiet. }
    split; [apply in_or_app; right; exact Hin|].
    cbn [trace outcome fst snd]. rewrite <- app_assoc. reflexivity.
Qed.

(** A run that raised, or ended, on inert events alone. *)
Lemma shape_inert (t : list event) (r : result unit) :
  Forall (fun e => inert e = true) t -> shape w (t, r).
Proof.
  intros H. left. cbn [trace fst].
  eapply Forall_impl; [exact H|]. exact inert_calm.
Qed.

Lemma main_fallback_shape (tx_data tx : json) :
  shape w (main_fallback w tx_data tx).
Proof.
  unfold main_fallback. run.
  destruct (py_get tx "fee_sats" JNull) as [fee|e]; run;
    [|apply shape_inert; repeat constructor].
  destruct (py_get tx_data "private_key_wif" JNull) as [wif|e]; run;
    [|apply shape_inert; repeat constructor].
  destruct (fallback_shape tx wif fee) as (Hq & _ & Hs).
  destruct (python_fallback_broadcast w tx wif fee) as [tp [txid|e]];
    cbn [trace outcome fst snd] in Hq, Hs; run.
  - destruct (truthy txid) eqn:Ht.
    + destruct (Hs txid eq_refl Ht) as (h & Hh & Hin).
      rewrite cleanup_eq. run.
      right; right. exists (Print LUsingFallback :: tp), h.
      split; [destruct h; [exfalso; apply Hh; reflexivity|reflexivity]|].
      split; [constructor; [reflexivity|exact Hq]|].
      split; [right; exact Hin|].
      reflexivity.
    + run. left. cbn [trace fst]. constructor; [reflexivity|].
      apply Forall_app. split.
      * eapply Forall_impl; [exact Hq|]. exact quiet_calm.
      * repeat constructor.
  - left. cbn [trace fst]. constructor; [reflexivity|].
    eapply Forall_impl; [exact Hq|]. exact quiet_calm.
Qed.


Lemma main_broadcast_shape (tx_data tx : json) :
  shape w (main_broadcast w tx_data tx).
Proof.
  unfold main_broadcast.
  pose proof (main_fallback_shape tx_data tx) as Hf.
  destruct (main_fallback w tx_data tx) as [tf rf].
  destruct (py_get tx_data "raw_transaction_hex" JNull) as [raw|e]; run;
    [|apply shape_inert; repeat constructor].
  destruct (truthy raw); [|exact Hf].
  run.
  destruct (py_getitem tx_data "raw_transaction_hex") as [raw'|e]; run;
    [|apply shape_inert; repeat constructor].
  unfold broadcast_raw_transaction. run.
  destruct (http_post w raw') as [status body| |]; run.
  - destruct (status =? 200); cbv zeta; run.
    + destruct (encodable (strip body)); run;
        [|apply shape_inert; repeat constructor].
      change (truthy (JStr (strip body))) with (nonblank (strip body)).
      destruct (nonblank (strip body)) eqn:Hn.
      * rewrite cleanup_eq. run. right; left.
        exists [Print LAttemptRaw], raw', (strip body).
        split; [exact Hn|]. split; [repeat constructor|reflexivity].
      * apply (shape_prefix
                 [Print LAttemptRaw; CallRaw raw'; HttpPost raw';
                  Print (LRawBroadcasted (strip body))] (tf, rf));
          [|exact Hf].
        repeat constructor. unfold inert, loud. cbn. rewrite Hn. reflexivity.
    + destruct (encodable body); run;
        [|apply shape_inert; repeat constructor].
      apply (shape_prefix
               [Print LAttemptRaw; CallRaw raw'; HttpPost raw';
                Print (LBroadcastFailed status body)] (tf, rf));
        [repeat constructor|exact Hf].
  - apply (shape_prefix
             [Print LAttemptRaw; CallRaw raw'; HttpPost raw';
              Print LNetworkError] (tf, rf));
      [repeat constructor|exact Hf].
  - apply shape_inert. repeat constructor.
Qed.

Lemma all_present_inert (report : string -> line) (fields : list string)
    (obj : json) :
  (forall f, inert (Print (report f)) = true) ->
  Forall (fun e => inert e = true) (trace (all_present report fields obj)).
Proof.
  intros Hr. induction fields as [|f rest IH]; cbn [all_present].
  - constructor.
  - destruct (py_in f obj) as [[|]|e].
    + rewrite bind_lift_ret. exact IH.
    + run. destruct (printable (report f)); run; repeat constructor. apply Hr.
    + run. constructor.
Qed.

Lemma verify_inert (tx_data : json) :
  Forall (fun e => inert e = true) (trace (verify_transaction_data tx_data)).
Proof.
  unfold verify_transaction_data.
  pose proof (all_present_inert LMissingField required tx_data
                ltac:(reflexivity)) as H1.
  destruct (all_present LMissingField required tx_data) as [t1 [[|]|e]];
    cbn [trace fst] in H1; run; rewrite ?app_nil_r; try exact H1.
  destruct (py_getitem tx_data "transaction") as [tx|e]; run;
    rewrite ?app_nil_r; try exact H1.
  pose proof (all_present_inert LTransactionMissing required_tx tx
                ltac:(reflexivity)) as H2.
  destruct (all_present LTransactionMissing required_tx tx) as [t2 r2].
  cbn [trace fst] in *. apply Forall_app. split; assumption.
Qed.


Lemma main_shape : shape w (main w).
Proof.
  unfold main, load_pending_transaction.
  destruct (pending_file w) as [| |tx_data]; run;
    try (apply shape_inert; repeat constructor).
  destruct (truthy tx_data); run; [|apply shape_inert; repeat constructor].
  pose proof (verify_inert tx_data) as Hv.
  destruct (verify_transaction_data tx_data) as [tv [[|]|e]];
    cbn [trace fst] in Hv; run;
    try (apply shape_inert; constructor; [reflexivity|];
         rewrite ?app_nil_r; exact Hv).
  destruct (py_getitem tx_data "transaction") as [tx|e]; run;
    [|apply shape_inert; constructor; [reflexivity|];
      rewrite ?app_nil_r; exact Hv].
  pose proof (main_broadcast_shape tx_data tx) as Hb.
  destruct (main_broadcast w tx_data tx) as [tb rb].
  assert (forall (t : list event) (r : result unit),
            Forall (fun e => inert e = true) t ->
            shape w (Print LBanner :: tv ++ t, r)) as Hstop.
  { intros t r Ht. apply shape_inert. constructor; [reflexivity|].
    apply Forall_app. split; assumption. }
  destruct (py_get tx_data "signature" JNull) as [sig|e]; run;
    [|apply (Hstop []); constructor].
  destruct (py_getitem tx "from_address") as [from|e]; run;
    [|apply Hstop; repeat constructor].
  destruct (writable from); run; [|apply Hstop; repeat constructor].
  destruct (py_getitem tx "to_address") as [to|e]; run;
    [|apply Hstop; repeat constructor].
  destruct (writable to); run; [|apply Hstop; repeat constructor].
  destruct (py_getitem tx "amount_sats") as [amt|e]; run;
    [|apply Hstop; repeat constructor].
  destruct (py_satoshis_to_btc w amt) as [btc|e]; run;
    [|apply Hstop; repeat constructor].
  destruct (writable amt); run; [|apply Hstop; repeat constructor].
  destruct (py_get tx "fee_sats" (JInt 0)) as [fee0|e]; run;
    [|apply Hstop; repeat constructor].
  destruct (writable fee0); run; [|apply Hstop; repeat constructor].
  replace (Print LBanner :: tv ++ Print LDetails :: Print (LFrom from)
             :: Print (LTo to) :: Print (LAmount amt btc) :: Print (LFee fee0)
             :: Print (LSigned (truthy sig)) :: Print LBroadcasting :: tb)
    with ((Print LBanner :: tv ++ [Print LDetails; Print (LFrom from);
             Print (LTo to); Print (LAmount amt btc); Print (LFee fee0);
             Print (LSigned (truthy sig)); Print LBroadcasting]) ++ tb)
    by (cbn [app]; rewrite <- app_assoc; reflexivity).
  apply (shape_prefix _ (tb, rb)); [|exact Hb].
  constructor; [reflexivity|]. apply Forall_app. split; [exact Hv|].
  repeat constructor.
Qed.

End Shapes.

(** ** Every run of [main] *)

Section EveryRun.
Variable w : World.

Lemma all_present_prints (report : string -> line) (fields : list string)
    (obj : json) :
  Forall (fun e => is_print e = true) (trace (all_present report fields obj)).
Proof.
  induction fields as [|f rest IH]; cbn [all_present].
  - constructor.
  - destruct (py_in f obj) as [[|]|e].
    + rewrite bind_lift_ret. exact IH.
    + run. destruct (printable (report f)); run; repeat constructor.
    + run. constructor.
Qed.

Lemma verify_prints (tx_data : json) :
  Forall (fun e => is_print e = true) (trace (verify_transaction_data tx_data)).
Proof.
  unfold verify_transaction_data.
  pose proof (all_present_prints LMissingField required tx_data) as H1.
  destruct (all_present LMissingField required tx_data) as [t1 [[|]|e]];
    cbn [trace fst] in H1; run; rewrite ?app_nil_r; try exact H1.
  destruct (py_getitem tx_data "transaction") as [tx|e]; run;
    rewrite ?app_nil_r; try exact H1.
  pose proof (all_present_prints LTransactionMissing required_tx tx) as H2.
  destruct (all_present LTransactionMissing required_tx tx) as [t2 r2].
  cbn [trace fst] in *. apply Forall_app. split; assumption.
Qed.

Lemma all_present_true (report : string -> line) (fields : list string)
    (obj : json) :
  outcome (all_present report fields obj) = Ret true ->
  Forall (fun f => py_in f obj = Ret true) fields.
Proof.
  induction fields as [|f rest IH]; cbn [all_present]; [constructor|].
  destruct (py_in f obj) as [[|]|e] eqn:Hf.
  - rewrite bind_lift_ret. intros H. constructor; [exact Hf|exact (IH H)].
  - run. destruct (printable (report f)); run; intros H; discriminate H.
  - run. intros H. discriminate H.
Qed.

(** The validator returns [True] on objects only, which then hold the
    three top-level keys. *)
Lemma verify_true_object (tx_data : json) :
  outcome (verify_transaction_data tx_data) = Ret true ->
  exists (d : gmap string json) (tx : json),
    tx_data = JDict d /\
    Forall (fun g => is_Some (d !! g)) required /\
    d !! "transaction"%string = Some tx /\
    Forall (fun f => py_in f tx = Ret true) required_tx.
Proof.
  unfold verify_transaction_data.
  pose proof (all_present_true LMissingField required tx_data) as H1.
  destruct (all_present LMissingField required tx_data) as [t1 [[|]|e]];
    cbn [outcome snd] in H1; run; try (intros H; discriminate H).
  specialize (H1 eq_refl).
  destruct (py_getitem tx_data "transaction") as [tx|e] eqn:Hg; run;
    [|intros H; discriminate H].
  pose proof (all_present_true LTransactionMissing required_tx tx) as H2.
  destruct (all_present LTransactionMissing required_tx tx) as [t2 r2].
  cbn [outcome snd] in *. intros H. specialize (H2 H).
  destruct tx_data as [| | | | |d]; try discriminate Hg.
  exists d, tx. split; [reflexivity|]. split.
  - eapply Forall_impl; [exact H1|]. intros g Hgin. cbn [py_in] in Hgin.
    injection Hgin as Hgin. apply bool_decide_eq_true in Hgin. exact Hgin.
  - split; [|exact H2]. cbn [py_getitem] in Hg.
    destruct (d !! "transaction"%string) as [v|]; [|discriminate Hg].
    injection Hg as ->. reflexivity.
Qed.

(** [main] either only prints, or prints and goes on to the broadcast
    with a record the validator accepted. *)
Lemma main_cases :
  Forall (fun e => is_print e = true) (trace (main w)) \/
  exists (tx_data tx : json) (pre : list event),
    pending_file w = Stored tx_data /\
    outcome (verify_transaction_data tx_data) = Ret true /\
    py_getitem tx_data "transaction" = Ret tx /\
    Forall (fun e => is_print e = true) pre /\
    main w = (pre ++ trace (main_broadcast w tx_data tx),
              outcome (main_broadcast w tx_data tx)).
Proof.
  unfold main, load_pending_transaction.
  destruct (pending_file w) as [| |tx_data] eqn:Hfile; run;
    try solve [left; repeat constructor].
  destruct (truthy tx_data); run; [|left; repeat constructor].
  pose proof (verify_prints tx_data) as Hv.
  destruct (verify_transaction_data tx_data) as [tv [[|]|e]] eqn:Hverify;
    cbn [trace fst] in Hv; run;
    try solve [left; constructor; [reflexivity|]; rewrite ?app_nil_r; exact Hv].
  assert (forall t : list event,
            Forall (fun e => is_print e = true) t ->
            Forall (fun e => is_print e = true) (Print LBanner :: tv ++ t))
    as Hstop.
  { intros t Ht. constructor; [reflexivity|]. apply Forall_app. split; assumption. }
  destruct (py_getitem tx_data "transaction") as [tx|e] eqn:Htx; run;
    [|left; apply (Hstop []); constructor].
  destruct (main_broadcast w tx_data tx) as [tb rb] eqn:Hb.
  destruct (py_get tx_data "signature" JNull) as [sig|e]; run;
    [|left; apply (Hstop []); constructor].
  destruct (py_getitem tx "from_address") as [from|e]; run;
    [|left; apply Hstop; repeat constructor].
  destruct (writable from); run; [|left; apply Hstop; repeat constructor].
  destruct (py_getitem tx "to_address") as [to|e]; run;
    [|left; apply Hstop; repeat constructor].
  destruct (writable to); run; [|left; apply Hstop; repeat constructor].
  destruct (py_getitem tx "amount_sats") as [amt|e]; run;
    [|left; apply Hstop; repeat constructor].
  destruct (py_satoshis_to_btc w amt) as [btc|e]; run;
    [|left; apply Hstop; repeat constructor].
  destruct (writable amt); run; [|left; apply Hstop; repeat constructor].
  destruct (py_get tx "fee_sats" (JInt 0)) as [fee0|e]; run;
    [|left; apply Hstop; repeat constructor].
  destruct (writable fee0); run; [|left; apply Hstop; repeat constructor].
  right. exists tx_data, tx.
  exists (Print LBanner :: tv ++ [Print LDetails; Print (LFrom from);
            Print (LTo to); Print (LAmount amt btc); Print (LFee fee0);
            Print (LSigned (truthy sig)); Print LBroadcasting]).
  split; [reflexivity|]. split; [rewrite Hverify; reflexivity|].
  split; [exact Htx|].
  split; [apply Hstop; repeat constructor|].
  rewrite Hb. cbn [app trace outcome fst snd]. rewrite <- app_assoc. reflexivity.
Qed.

(** The same with what the events before the broadcast are not: none
    of them is an ending or belongs to the fallback. *)
Lemma main_cases_inert :
  Forall (fun e => inert e = true) (trace (main w)) \/
  exists (tx_data tx : json) (pre : list event),
    pending_file w = Stored tx_data /\
    outcome (verify_transaction_data tx_data) = Ret true /\
    py_getitem tx_data "transaction" = Ret tx /\
    Forall (fun e => inert e = true) pre /\
    main w = (pre ++ trace (main_broadcast w tx_data tx),
              outcome (main_broadcast w tx_data tx)).
Proof.
  unfold main, load_pending_transaction.
  destruct (pending_file w) as [| |tx_data] eqn:Hfile; run;
    try solve [left; repeat constructor].
  destruct (truthy tx_data); run; [|left; repeat constructor].
  pose proof (verify_inert tx_data) as Hv.
  destruct (verify_transaction_data tx_data) as [tv [[|]|e]] eqn:Hverify;
    cbn [trace fst] in Hv; run;
    try solve [left; constructor; [reflexivity|]; rewrite ?app_nil_r; exact Hv].
  assert (forall t : list event,
            Forall (fun e => inert e = true) t ->
            Forall (fun e => inert e = true) (Print LBanner :: tv ++ t))
    as Hstop.
  { intros t Ht. constructor; [reflexivity|]. apply Forall_app. split; assumption. }
  destruct (py_getitem tx_data "transaction") as [tx|e] eqn:Htx; run;
    [|left; apply (Hstop []); constructor].
  destruct (main_broadcast w tx_data tx) as [tb rb] eqn:Hb.
  destruct (py_get tx_data "signature" JNull) as [sig|e]; run;
    [|left; apply (Hstop []); constructor].
  destruct (py_getitem tx "from_address") as [from|e]; run;
    [|left; apply Hstop; repeat constructor].
  destruct (writable from); run; [|left; apply Hstop; repeat constructor].
  destruct (py_getitem tx "to_address") as [to|e]; run;
    [|left; apply Hstop; repeat constructor].
  destruct (writable to); run; [|left; apply Hstop; repeat constructor].
  destruct (py_getitem tx "amount_sats") as [amt|e]; run;
    [|left; apply Hstop; repeat constructor].
  destruct (py_satoshis_to_btc w amt) as [btc|e]; run;
    [|left; apply Hstop; repeat constructor].
  destruct (writable amt); run; [|left; apply Hstop; repeat constructor].
  destruct (py_get tx "fee_sats" (JInt 0)) as [fee0|e]; run;
    [|left; apply Hstop; repeat constructor].
  destruct (writable fee0); run; [|left; apply Hstop; repeat constructor].
  right. exists tx_data, tx.
  exists (Print LBanner :: tv ++ [Print LDetails; Print (LFrom from);
            Print (LTo to); Print (LAmount amt btc); Print (LFee fee0);
            Print (LSigned (truthy sig)); Print LBroadcasting]).
  split; [reflexivity|]. split; [rewrite Hverify; reflexivity|].
  split; [exact Htx|].
  split; [apply Hstop; repeat constructor|].
  rewrite Hb. cbn [app trace outcome fst snd]. rewrite <- app_assoc. reflexivity.
Qed.

End EveryRun.

(** ** The orchestrator on a valid record *)

Section Counting.

Lemma filter_none (p : event -> bool) (t : list event) :
  Forall (fun e => p e = false) t -> List.filter p t = [].
Proof.
  induction 1 as [|e t He _ IH]; [reflexivity|].
  cbn [List.filter]. rewrite He. exact IH.
Qed.

Lemma count_none (p : event -> bool) (t : list event) :
  Forall (fun e => p e = false) t -> count p t = 0%nat.
Proof. intros H. unfold count. rewrite (filter_none p t H). reflexivity. Qed.

Lemma inert_not_fallback (e : event) : inert e = true -> is_fallback e = false.
Proof.
  unfold inert. destruct (is_fallback e); [|reflexivity].
  rewrite orb_true_r. discriminate.
Qed.

Lemma quiet_not_unlink (e : event) : loud e = false -> is_unlink e = false.
Proof. unfold loud. destruct (is_unlink e); [discriminate|reflexivity]. Qed.

Lemma quiet_not_failed (e : event) : loud e = false -> is_failed e = false.
Proof.
  unfold loud. destruct (is_failed e); [|reflexivity].
  rewrite orb_true_r. discriminate.
Qed.

Lemma quiet_not_raw_success (e : event) :
  loud e = false -> is_raw_success e = false.
Proof.
  unfold loud. destruct (is_raw_success e); [|reflexivity].
  rewrite orb_true_r. discriminate.
Qed.

Lemma count_removed (w : World) (p : event -> bool) :
  p (Print LRemoved) = false -> count p (removed w) = 0%nat.
Proof. intros H. unfold removed, count. destruct (unlink_ok w); cbn; rewrite ?H; reflexivity. Qed.

End Counting.

Section Orchestrator.
Variable w : World.

(** The fallback records its call first, and once. *)
Lemma fallback_call_first (transaction wif fee_sats : json) :
  List.filter is_fallback_call
    (trace (python_fallback_broadcast w transaction wif fee_sats))
  = [CallFallback transaction wif fee_sats].
Proof.
  unfold python_fallback_broadcast. run.
  destruct (key_of_wif w wif); run; [|reflexivity].
  destruct (py_getitem transaction "to_address") as [to|e]; run; [|reflexivity].
  destruct (py_getitem transaction "amount_sats") as [amt|e]; run; [|reflexivity].
  destruct (py_satoshis_to_btc w amt) as [btc|e]; run; [|reflexivity].
  destruct (truthy fee_sats); run;
    (destruct (key_send w wif _ _) as [h|]; run;
     [destruct (encodable h); run|]); reflexivity.
Qed.

(** The fallback tail calls the fallback once, with the transaction,
    the stored key and the stored fee. *)
Lemma main_fallback_calls (tx_data tx fee wif : json) :
  py_get tx "fee_sats" JNull = Ret fee ->
  py_get tx_data "private_key_wif" JNull = Ret wif ->
  List.filter is_fallback_call (trace (main_fallback w tx_data tx))
  = [CallFallback tx wif fee].
Proof.
  intros Hfee Hwif. unfold main_fallback.
  rewrite Hfee, bind_lift_ret, Hwif, bind_lift_ret.
  pose proof (fallback_call_first tx wif fee) as Hc.
  destruct (python_fallback_broadcast w tx wif fee) as [tp [txid|e]];
    cbn [trace fst] in Hc; run; [|exact Hc].
  destruct (truthy txid); [rewrite cleanup_eq; unfold removed|]; run;
    try destruct (unlink_ok w); cbn [trace fst List.filter is_fallback_call];
    rewrite List.filter_app, Hc; reflexivity.
Qed.

Variable d t : gmap string json.
Variable from_address to_address amount_sats : json.
Hypothesis Hstored : pending_file w = Stored (JDict d).
Hypothesis Hvalid : structurally_valid d.
Hypothesis Htx : d !! "transaction"%string = Some (JDict t).
Hypothesis Hfrom : t !! "from_address"%string = Some from_address.
Hypothesis Hto : t !! "to_address"%string = Some to_address.
Hypothesis Hamt : t !! "amount_sats"%string = Some amount_sats.

(** On a valid record [main] is the banner, the details and the
    broadcast. *)
Lemma main_valid_chain :
  main w =
  (print LBanner ;;;
   print LDetails ;;;
   print (LFrom from_address) ;;;
   print (LTo to_address) ;;;
   btc <- lift (py_satoshis_to_btc w amount_sats) ;;
   print (LAmount amount_sats btc) ;;;
   print (LFee (default (JInt 0) (t !! "fee_sats"%string))) ;;;
   print (LSigned (truthy (default JNull (d !! "signature"%string)))) ;;;
   print LBroadcasting ;;;
   main_broadcast w (JDict d) (JDict t)).
Proof.
  pose proof (verify_valid d Hvalid) as Hverify.
  unfold main, load_pending_transaction. rewrite Hstored.
  rewrite (bind_ret_l (JDict d)).
  rewrite (truthy_dict d "transaction") by (rewrite Htx; eexists; reflexivity).
  cbn [negb]. rewrite Hverify, bind_ret_l. cbn [negb py_getitem py_get].
  rewrite Htx, bind_lift_ret, bind_lift_ret. cbn [py_getitem py_get].
  rewrite Hfrom, bind_lift_ret, Hto, bind_lift_ret, Hamt, bind_lift_ret.
  rewrite bind_lift_ret. reflexivity.
Qed.

(** [main] prints the details and reaches the broadcast when the
    amount converts and the values shown can be written. *)
Lemma main_valid_run (btc : Decimal.t) :
  py_satoshis_to_btc w amount_sats = Ret btc ->
  writable from_address = true ->
  writable to_address = true ->
  writable amount_sats = true ->
  writable (default (JInt 0) (t !! "fee_sats"%string)) = true ->
  main w =
  (details d t from_address to_address amount_sats btc
     ++ trace (main_broadcast w (JDict d) (JDict t)),
   outcome (main_broadcast w (JDict d) (JDict t))).
Proof.
  intros Hbtc H1 H2 H3 H4. rewrite main_valid_chain, Hbtc.
  destruct (main_broadcast w (JDict d) (JDict t)) as [tb rb].
  run. rewrite H1. run. rewrite H2. run. rewrite H3. run. rewrite H4.
  reflexivity.
Qed.

Lemma main_broadcast_falsy :
  truthy (default JNull (d !! "raw_transaction_hex"%string)) = false ->
  main_broadcast w (JDict d) (JDict t) = main_fallback w (JDict d) (JDict t).
Proof.
  intros H. unfold main_broadcast. cbn [py_get].
  rewrite bind_lift_ret, H. reflexivity.
Qed.

Lemma main_broadcast_failed (raw : json) :
  d !! "raw_transaction_hex"%string = Some raw ->
  truthy raw = true ->
  outcome (broadcast_raw_transaction w raw) = Ret JNull ->
  main_broadcast w (JDict d) (JDict t)
  = (Print LAttemptRaw :: trace (broadcast_raw_transaction w raw)
       ++ trace (main_fallback w (JDict d) (JDict t)),
     outcome (main_fallback w (JDict d) (JDict t))).
Proof.
  intros Hraw Htruthy Hout. unfold main_broadcast. cbn [py_get py_getitem].
  rewrite Hraw. change (default JNull (Some raw)) with raw.
  rewrite bind_lift_ret, Htruthy, bind_lift_ret.
  destruct (broadcast_raw_transaction w raw) as [tr rr].
  cbn [outcome snd] in Hout. subst rr.
  destruct (main_fallback w (JDict d) (JDict t)) as [tf rf].
  reflexivity.
Qed.

End Orchestrator.

(** ** Claims about the orchestrator *)

(** C1, counterexample: the endpoint answers 200 with an empty body;
    the raw broadcaster returns the empty identifier it printed, [main]
    takes it for a failure, runs the fallback and unlinks only after the
    library's answer. *)
Lemma C1_blank_txid_falls_back :
  ~ (forall (w : World) (d : gmap string json) (txid : text),
       pending_file w = Stored (JDict d) ->
       structurally_valid d ->
       is_Some (d !! "raw_transaction_hex"%string) ->
       In (Print (LRawBroadcasted txid)) (trace (main w)) ->
       count is_fallback (trace (main w)) = 0%nat /\
       count is_unlink (trace (main w)) = 1%nat).
Proof.
  intros H.
  specialize (H (Scenario.world (Scenario.record_raw (JStr (text_of "deadbeef")))
                   (Response 200 []))
                (Scenario.record_raw (JStr (text_of "deadbeef"))) [] eq_refl).
  destruct H as [H _].
  - valid_by_lookup.
  - eexists; reflexivity.
  - vm_compute. do 11 right. left. reflexivity.
  - vm_compute in H. discriminate H.
Qed.

(** C1, amended: on a structurally valid record holding
    [raw_transaction_hex], once the raw broadcaster has returned a
    non-empty identifier (the one it printed), no event of the fallback
    occurs, the record is unlinked once and [main] ends normally; the
    file is gone when the unlink succeeds. *)
Theorem C1_raw_success_skips_fallback (w : World) (d : gmap string json)
    (txid : text) :
  pending_file w = Stored (JDict d) ->
  structurally_valid d ->
  is_Some (d !! "raw_transaction_hex"%string) ->
  txid <> [] ->
  In (Print (LRawBroadcasted txid)) (trace (main w)) ->
  count is_fallback (trace (main w)) = 0%nat /\
  count is_unlink (trace (main w)) = 1%nat /\
  outcome (main w) = Ret tt /\
  (unlink_ok w = true -> record_after w (trace (main w)) = NoFile).
Proof.
  intros _ _ _ Hne Hin.
  assert (is_raw_success (Print (LRawBroadcasted txid)) = true) as Hs.
  { destruct txid; [exfalso; apply Hne; reflexivity|reflexivity]. }
  destruct (main_shape w) as
    [Hcalm | [(pre & raw & id & Hn & Hp & Hm) | (pre & h & Hn & Hp & _ & Hm)]].
  - rewrite List.Forall_forall in Hcalm. specialize (Hcalm _ Hin).
    rewrite Hs, orb_true_r in Hcalm. discriminate Hcalm.
  - rewrite Hm. cbn [trace outcome fst snd].
    rewrite !count_app.
    rewrite !(count_none _ pre), !count_removed; try reflexivity.
    + split; [reflexivity|]. split; [reflexivity|]. split; [reflexivity|].
      intros Hok. unfold record_after. rewrite Hok, !existsb_app.
      cbn. rewrite orb_true_r. reflexivity.
    + eapply Forall_impl; [exact Hp|].
      intros e He. exact (quiet_not_unlink e (inert_quiet e He)).
    + eapply Forall_impl; [exact Hp|]. exact inert_not_fallback.
  - exfalso. rewrite Hm in Hin. cbn [trace fst] in Hin.
    apply in_app_or in Hin as [Hin | Hin].
    + rewrite List.Forall_forall in Hp. specialize (Hp _ Hin).
      unfold loud in Hp. rewrite Hs in Hp. cbn in Hp. discriminate Hp.
    + destruct Hin as [Hin | Hin]; [discriminate Hin|].
      apply in_app_or in Hin as [Hin | Hin].
      * unfold removed in Hin. destruct (unlink_ok w); cbn in Hin;
          [destruct Hin as [Hin|[]]; discriminate Hin | contradiction].
      * destruct Hin as [Hin|[]]. discriminate Hin.
Qed.

Lemma C1_raw_success_witness :
  count is_fallback (trace (main Scenario.world_accepted)) = 0%nat /\
  count is_unlink (trace (main Scenario.world_accepted)) = 1%nat /\
  outcome (main Scenario.world_accepted) = Ret tt /\
  (unlink_ok Scenario.world_accepted = true ->
   record_after Scenario.world_accepted (trace (main Scenario.world_accepted))
   = NoFile).
Proof.
  apply (C1_raw_success_skips_fallback Scenario.world_accepted
           (Scenario.record_raw (JStr (text_of "deadbeef"))) (text_of "abc123")).
  - reflexivity.
  - valid_by_lookup.
  - eexists; reflexivity.
  - discriminate.
  - vm_compute. do 11 right. left. reflexivity.
Defined.

Lemma raw_trace_no_fallback_call (w : World) (raw : json) :
  List.filter is_fallback_call (trace (broadcast_raw_transaction w raw)) = [].
Proof.
  destruct (raw_trace_shape w raw) as (rest & -> & Hrest).
  cbn [List.filter is_fallback_call]. apply filter_none.
  eapply Forall_impl; [exact Hrest|].
  intros [l| | | | | |]; cbn; first [discriminate|reflexivity].
Qed.

(** C2, counterexample: a record with all six keys and no raw payload
    whose [amount_sats] is [null] passes the validator, and [main]
    raises while printing the amount ([Decimal(None)] is a type error)
    before any broadcast: the fallback is not invoked. *)
Lemma C2_null_amount_never_reaches_fallback :
  ~ (forall (w : World) (d : gmap string json),
       pending_file w = Stored (JDict d) ->
       structurally_valid d ->
       d !! "raw_transaction_hex"%string = None ->
       count is_fallback_call (trace (main w)) = 1%nat).
Proof.
  intros H.
  specialize (H (Scenario.world (Scenario.record JNull) RequestException)
                (Scenario.record JNull) eq_refl).
  assert (structurally_valid (Scenario.record JNull)) as Hv by valid_by_lookup.
  specialize (H Hv eq_refl).
  vm_compute in H. discriminate H.
Qed.

(** C2, amended: on a structurally valid record whose [amount_sats]
    converts to a decimal (every integer does) and whose printed values
    can be written to the output stream, if the record has no
    [raw_transaction_hex] or the raw broadcaster returned [None], [main]
    invokes the fallback exactly once, with the transaction, the stored
    [private_key_wif] and [transaction.get("fee_sats")]. *)
Theorem C2_fallback_invoked_once (w : World) (d t : gmap string json)
    (wif : json) :
  pending_file w = Stored (JDict d) ->
  structurally_valid d ->
  amount_converts w d ->
  fields_printable d ->
  d !! "transaction"%string = Some (JDict t) ->
  d !! "private_key_wif"%string = Some wif ->
  (d !! "raw_transaction_hex"%string = None \/
   exists raw, d !! "raw_transaction_hex"%string = Some raw /\
               outcome (broadcast_raw_transaction w raw) = Ret JNull) ->
  List.filter is_fallback_call (trace (main w))
  = [CallFallback (JDict t) wif (default JNull (t !! "fee_sats"%string))].
Proof.
  intros Hstored Hvalid Hconv Hprint Ht Hwif Hraw.
  pose proof Hvalid as (_ & _ & t0 & Ht0 & [from Hfrom] & [to Hto] & _).
  rewrite Ht in Ht0. injection Ht0 as <-.
  destruct Hconv as (t1 & amt & btc & Ht1 & Hamt & Hbtc).
  rewrite Ht in Ht1. injection Ht1 as <-.
  destruct Hprint as (t2 & Ht2 & H1 & H2 & H3 & H4).
  rewrite Ht in Ht2. injection Ht2 as <-.
  rewrite Hfrom in H1. rewrite Hto in H2. rewrite Hamt in H3.
  rewrite (main_valid_run w d t from to amt Hstored Hvalid Ht Hfrom Hto Hamt
             btc Hbtc H1 H2 H3 H4).
  cbn [trace fst]. rewrite List.filter_app.
  change (List.filter is_fallback_call (details d t from to amt btc)) with (@nil event).
  cbn [app].
  assert (List.filter is_fallback_call (trace (main_fallback w (JDict d) (JDict t)))
          = [CallFallback (JDict t) wif (default JNull (t !! "fee_sats"%string))])
    as Hcalls.
  { apply main_fallback_calls; [reflexivity|]. cbn [py_get]. rewrite Hwif. reflexivity. }
  destruct Hraw as [Hnone | (raw & Hsome & Hout)].
  - rewrite main_broadcast_falsy by (rewrite Hnone; reflexivity).
    exact Hcalls.
  - destruct (truthy raw) eqn:Htruthy.
    + rewrite (main_broadcast_failed w d t raw Hsome Htruthy Hout).
      cbn [trace fst List.filter is_fallback_call].
      rewrite List.filter_app, raw_trace_no_fallback_call. exact Hcalls.
    + rewrite main_broadcast_falsy by (rewrite Hsome; exact Htruthy).
      exact Hcalls.
Qed.

Lemma C2_fallback_after_http_500 :
  List.filter is_fallback_call (trace (main Scenario.world_rejected))
  = [CallFallback (JDict (Scenario.tx (JInt 1000))) (JStr (text_of "K")) JNull].
Proof.
  apply (C2_fallback_invoked_once Scenario.world_rejected
           (Scenario.record_raw (JStr (text_of "deadbeef")))
           (Scenario.tx (JInt 1000)) (JStr (text_of "K"))).
  - reflexivity.
  - valid_by_lookup.
  - exists (Scenario.tx (JInt 1000)), (JInt 1000), (Decimal.mk false 1 (-5)).
    repeat split; reflexivity.
  - exists (Scenario.tx (JInt 1000)). repeat split; reflexivity.
  - reflexivity.
  - reflexivity.
  - right. exists (JStr (text_of "deadbeef")). split; reflexivity.
Defined.

Section FalsyRaw.
Variable w : World.

(** The fallback tail makes no raw attempt. *)
Lemma main_fallback_no_raw (tx_data tx : json) :
  Forall (fun e => is_raw_call e || is_post e = false)
         (trace (main_fallback w tx_data tx)).
Proof.
  unfold main_fallback, python_fallback_broadcast. rewrite cleanup_eq.
  unfold removed. run.
  destruct (py_get tx "fee_sats" JNull) as [fee|e]; run; [|repeat constructor].
  destruct (py_get tx_data "private_key_wif" JNull) as [wif|e]; run;
    [|repeat constructor].
  destruct (key_of_wif w wif); run; [|repeat constructor].
  destruct (py_getitem tx "to_address") as [to|e]; run; [|repeat constructor].
  destruct (py_getitem tx "amount_sats") as [amt|e]; run; [|repeat constructor].
  destruct (py_satoshis_to_btc w amt) as [btc|e]; run; [|repeat constructor].
  destruct (truthy fee); run;
    (destruct (key_send w wif _ _) as [h|]; run;
     [destruct (encodable h); run; [destruct (truthy (JStr h))|]|]);
    try destruct (unlink_ok w); run; repeat constructor.
Qed.

Lemma main_fallback_with_record (d d' t : gmap string json) :
  d' !! "private_key_wif"%string = d !! "private_key_wif"%string ->
  main_fallback (with_record w d') (JDict d') (JDict t)
  = main_fallback w (JDict d) (JDict t).
Proof.
  intros H. unfold main_fallback. cbn [py_get]. rewrite H. reflexivity.
Qed.

Lemma valid_delete_raw (d : gmap string json) :
  structurally_valid d ->
  structurally_valid (delete "raw_transaction_hex"%string d).
Proof.
  intros (Hw & Ha & t & Ht & Hrest).
  unfold structurally_valid. rewrite !lookup_delete_ne by discriminate.
  split; [exact Hw|]. split; [exact Ha|]. exists t. split; [exact Ht|exact Hrest].
Qed.

End FalsyRaw.

(** C10, counterexample: with [raw_transaction_hex] empty and
    [amount_sats] null the raw path is skipped, but [main] raises while
    printing the amount and the fallback is not reached. *)
Lemma C10_null_amount_stops_before_fallback :
  ~ (forall (w : World) (d : gmap string json) (v : json),
       pending_file w = Stored (JDict d) ->
       structurally_valid d ->
       d !! "raw_transaction_hex"%string = Some v ->
       truthy v = false ->
       count is_post (trace (main w)) = 0%nat /\
       count is_fallback_call (trace (main w)) = 1%nat).
Proof.
  intros H.
  pose (d := <["raw_transaction_hex"%string := JStr []]> (Scenario.record JNull)).
  specialize (H (Scenario.world d RequestException) d (JStr []) eq_refl).
  assert (structurally_valid d) as Hv by valid_by_lookup.
  destruct (H Hv eq_refl eq_refl) as [_ H1].
  vm_compute in H1. discriminate H1.
Qed.

(** C10, amended: on a structurally valid record whose
    [raw_transaction_hex] is present with a falsy value, [main] makes no
    raw attempt and no request, and runs exactly as on the record
    without the key; when [amount_sats] converts to a decimal and the
    printed values can be written to the output stream it goes on to
    invoke the fallback, once. *)
Theorem C10_falsy_raw_is_absent (w : World) (d : gmap string json) (v : json) :
  pending_file w = Stored (JDict d) ->
  structurally_valid d ->
  d !! "raw_transaction_hex"%string = Some v ->
  truthy v = false ->
  count is_raw_call (trace (main w)) = 0%nat /\
  count is_post (trace (main w)) = 0%nat /\
  main (with_record w (delete "raw_transaction_hex"%string d)) = main w /\
  (amount_converts w d -> fields_printable d ->
   count is_fallback_call (trace (main w)) = 1%nat).
Proof.
  intros Hstored Hvalid Hraw Hfalsy.
  pose proof Hvalid as (_ & _ & t & Ht & [from Hfrom] & [to Hto] & [amt Hamt]).
  set (d' := delete "raw_transaction_hex"%string d).
  assert (main_broadcast w (JDict d) (JDict t)
          = main_fallback w (JDict d) (JDict t)) as Hskip.
  { apply main_broadcast_falsy. rewrite Hraw. exact Hfalsy. }
  assert (main (with_record w d') = main w) as Hsame.
  { rewrite (main_valid_chain (with_record w d') d' t from to amt eq_refl
               (valid_delete_raw d Hvalid)
               ltac:(unfold d'; rewrite lookup_delete_ne by discriminate; exact Ht)
               Hfrom Hto Hamt).
    rewrite (main_valid_chain w d t from to amt Hstored Hvalid Ht Hfrom Hto Hamt).
    change (py_satoshis_to_btc (with_record w d') amt)
      with (py_satoshis_to_btc w amt).
    rewrite Hskip.
    rewrite main_broadcast_falsy
      by (unfold d'; rewrite lookup_delete_eq; reflexivity).
    rewrite (main_fallback_with_record w d d' t)
      by (unfold d'; apply lookup_delete_ne; discriminate).
    unfold d'. rewrite lookup_delete_ne by discriminate.
    reflexivity. }
  pose proof (main_fallback_no_raw w (JDict d) (JDict t)) as Hnoraw.
  assert (forall p : event -> bool,
            (forall e, is_raw_call e || is_post e = false -> p e = false) ->
            count p (trace (main w)) = 0%nat) as Hzero.
  { intros p Hp.
    destruct (main_cases w)
      as [Hprints | (tx_data & tx & pre & Hfile & _ & Hg & Hpre & Hmain)].
    - apply count_none. eapply Forall_impl; [exact Hprints|].
      intros [l| | | | | |] He; try discriminate He. apply Hp. reflexivity.
    - rewrite Hstored in Hfile. injection Hfile as <-.
      cbn [py_getitem] in Hg. rewrite Ht in Hg. injection Hg as <-.
      rewrite Hmain, Hskip. cbn [trace fst].
      rewrite count_app, (count_none p (trace _)).
      + rewrite count_none; [reflexivity|].
        eapply Forall_impl; [exact Hpre|].
        intros [l| | | | | |] He; try discriminate He. apply Hp. reflexivity.
      + eapply Forall_impl; [exact Hnoraw|exact Hp]. }
  split; [apply Hzero; intros e; destruct (is_raw_call e); [discriminate|reflexivity]|].
  split; [apply Hzero; intros e; destruct (is_post e);
            [rewrite orb_true_r; discriminate|reflexivity]|].
  split; [exact Hsame|].
  intros (t1 & amt1 & btc & Ht1 & Hamt1 & Hbtc) (t2 & Ht2 & H1 & H2 & H3 & H4).
  rewrite Ht in Ht1. injection Ht1 as <-.
  rewrite Hamt in Hamt1. injection Hamt1 as <-.
  rewrite Ht in Ht2. injection Ht2 as <-.
  rewrite Hfrom in H1. rewrite Hto in H2. rewrite Hamt in H3.
  rewrite (main_valid_run w d t from to amt Hstored Hvalid Ht Hfrom Hto Hamt
             btc Hbtc H1 H2 H3 H4), Hskip.
  cbn [trace fst]. unfold count.
  rewrite List.filter_app.
  rewrite (main_fallback_calls w (JDict d) (JDict t)
             (default JNull (t !! "fee_sats"%string))
             (default JNull (d !! "private_key_wif"%string)) eq_refl eq_refl).
  reflexivity.
Qed.

Lemma C10_empty_raw_witness :
  count is_raw_call (trace (main Scenario.world_empty_raw)) = 0%nat /\
  count is_post (trace (main Scenario.world_empty_raw)) = 0%nat /\
  main (with_record Scenario.world_empty_raw
          (delete "raw_transaction_hex"%string (Scenario.record_raw (JStr []))))
  = main Scenario.world_empty_raw /\
  count is_fallback_call (trace (main Scenario.world_empty_raw)) = 1%nat.
Proof.
  destruct (C10_falsy_raw_is_absent Scenario.world_empty_raw
              (Scenario.record_raw (JStr [])) (JStr []))
    as (Hcall & Hpost & Hsame & Hfallback).
  - reflexivity.
  - valid_by_lookup.
  - reflexivity.
  - reflexivity.
  - split; [exact Hcall|]. split; [exact Hpost|]. split; [exact Hsame|].
    apply Hfallback.
    + exists (Scenario.tx (JInt 1000)), (JInt 1000), (Decimal.mk false 1 (-5)).
      repeat split; reflexivity.
    + exists (Scenario.tx (JInt 1000)). repeat split; reflexivity.
Defined.

Section Cleanup.

Lemma unlink_split (A B pre post : list event) :
  Forall (fun e => is_unlink e = false) A ->
  Forall (fun e => is_unlink e = false) B ->
  A ++ Unlink :: B = pre ++ Unlink :: post ->
  pre = A.
Proof.
  intros HA HB. revert pre.
  induction HA as [|a A Ha _ IH]; intros [|p pre] Heq; cbn [app] in Heq.
  - reflexivity.
  - exfalso. injection Heq as <- ->.
    apply Forall_app in HB as [_ HB].
    apply Forall_cons in HB as [HB _]. cbn in HB. discriminate HB.
  - exfalso. injection Heq as -> _. cbn in Ha. discriminate Ha.
  - injection Heq as <- Heq. f_equal. exact (IH pre Heq).
Qed.

Lemma not_in_filter_nil (p : event -> bool) (x : event) (t : list event) :
  List.filter p t = [] -> p x = true -> ~ In x t.
Proof.
  intros Hnil Hp Hin.
  assert (In x (List.filter p t)) as H by (apply List.filter_In; split; assumption).
  rewrite Hnil in H. exact H.
Qed.

Lemma existsb_none (p : event -> bool) (t : list event) :
  Forall (fun e => p e = false) t -> existsb p t = false.
Proof.
  induction 1 as [|e t He _ IH]; [reflexivity|].
  cbn [existsb]. rewrite He, IH. reflexivity.
Qed.

Lemma removed_quiet (w : World) :
  Forall (fun e => is_unlink e = false) (removed w) /\
  List.filter is_failed (removed w) = [].
Proof. unfold removed. destruct (unlink_ok w); split; repeat constructor. Qed.

End Cleanup.

(** C5: in every run of [main], an unlink is preceded by the success
    report, with a non-empty identifier, of the raw broadcaster or of
    the fallback; a run that ends on the failure line has not unlinked
    and leaves the record in the store; [cleanup_pending] ends normally
    whether or not the unlink succeeds, and a run that unlinked ends
    normally and does not print the failure line. *)
Theorem C5_unlink_only_after_success (w : World) :
  (forall pre post : list event,
     trace (main w) = pre ++ Unlink :: post ->
     exists txid : text,
       txid <> [] /\
       (In (Print (LRawBroadcasted txid)) pre \/
        In (Print (LLibraryBroadcasted txid)) pre)) /\
  (In (Print LFailed) (trace (main w)) ->
   count is_unlink (trace (main w)) = 0%nat /\
   record_after w (trace (main w)) = pending_file w) /\
  outcome (cleanup_pending w) = Ret tt /\
  (In Unlink (trace (main w)) ->
   outcome (main w) = Ret tt /\ ~ In (Print LFailed) (trace (main w))).
Proof.
  destruct (removed_quiet w) as [Hrq Hrf].
  destruct (main_shape w) as
    [Hcalm | [(pre0 & raw & id & Hn & Hp & Hm) | (pre0 & h & Hn & Hp & Hin & Hm)]].
  - assert (Forall (fun e => is_unlink e = false) (trace (main w))) as Hnu.
    { eapply Forall_impl; [exact Hcalm|].
      intros e He. apply orb_false_elim in He as [He _]. exact He. }
    assert (~ In Unlink (trace (main w))) as Hnot.
    { intros Hin. rewrite List.Forall_forall in Hnu.
      specialize (Hnu _ Hin). cbn in Hnu. discriminate Hnu. }
    split; [|split; [|split]].
    + intros pre post Heq. exfalso. apply Hnot. rewrite Heq.
      apply in_or_app. right. left. reflexivity.
    + intros _. split; [apply count_none; exact Hnu|].
      unfold record_after. rewrite (existsb_none _ _ Hnu), andb_false_r.
      reflexivity.
    + rewrite cleanup_eq. reflexivity.
    + intros Hin. contradiction.
  - assert (Forall (fun e => is_unlink e = false)
              (pre0 ++ [CallRaw raw; HttpPost raw; Print (LRawBroadcasted id)]))
      as HA.
    { apply Forall_app. split; [|repeat constructor].
      eapply Forall_impl; [exact Hp|].
      intros e He. exact (quiet_not_unlink e (inert_quiet e He)). }
    assert (List.filter is_failed (trace (main w)) = []) as Hnf.
    { rewrite Hm. cbn [trace fst]. rewrite !List.filter_app, Hrf.
      rewrite (filter_none is_failed pre0); [reflexivity|].
      eapply Forall_impl; [exact Hp|].
      intros e He. exact (quiet_not_failed e (inert_quiet e He)). }
    pose proof (not_in_filter_nil is_failed (Print LFailed) _ Hnf eq_refl) as Hnotf.
    split; [|split; [|split]].
    + intros pre post Heq. rewrite Hm in Heq. cbn [trace fst] in Heq.
      assert (pre = pre0 ++ [CallRaw raw; HttpPost raw; Print (LRawBroadcasted id)])
        as ->.
      { apply (unlink_split _ (removed w) pre post HA Hrq).
        rewrite <- Heq, <- !app_assoc. reflexivity. }
      exists id. split; [exact (nonblank_ne id Hn)|]. left.
      apply in_or_app. right. do 2 right. left. reflexivity.
    + intros Hf. contradiction.
    + rewrite cleanup_eq. reflexivity.
    + intros _. split; [rewrite Hm; reflexivity|exact Hnotf].
  - assert (Forall (fun e => is_unlink e = false) pre0) as HA.
    { eapply Forall_impl; [exact Hp|exact quiet_not_unlink]. }
    assert (Forall (fun e => is_unlink e = false) (removed w ++ [Print LSuccess]))
      as HB.
    { apply Forall_app. split; [exact Hrq|repeat constructor]. }
    assert (List.filter is_failed (trace (main w)) = []) as Hnf.
    { rewrite Hm. cbn [trace fst List.filter is_failed].
      rewrite !List.filter_app. cbn [List.filter is_failed].
      rewrite List.filter_app, Hrf.
      rewrite (filter_none is_failed pre0); [reflexivity|].
      eapply Forall_impl; [exact Hp|exact quiet_not_failed]. }
    pose proof (not_in_filter_nil is_failed (Print LFailed) _ Hnf eq_refl) as Hnotf.
    split; [|split; [|split]].
    + intros pre post Heq. rewrite Hm in Heq. cbn [trace fst] in Heq.
      assert (pre = pre0) as ->
        by exact (unlink_split _ _ pre post HA HB Heq).
      exists h. split; [exact (nonblank_ne h Hn)|]. right. exact Hin.
    + intros Hf. contradiction.
    + rewrite cleanup_eq. reflexivity.
    + intros _. split; [rewrite Hm; reflexivity|exact Hnotf].
Qed.

(** ** Loading the record *)

Section Loading.
Variable w : World.

(** X1: when the pending file is missing or cannot be read or parsed,
    [load_pending_transaction] prints one diagnostic and returns [None],
    and [main] stops there: banner and diagnostic, a normal end. *)
Theorem X1_load_failure_stops_main :
  pending_file w = NoFile \/ pending_file w = Unreadable ->
  outcome (load_pending_transaction w) = Ret JNull /\
  (exists l, (l = LNoPending \/ l = LLoadError) /\
             main w = ([Print LBanner; Print l], Ret tt)) /\
  record_after w (trace (main w)) = pending_file w.
Proof.
  intros [H | H].
  - assert (main w = ([Print LBanner; Print LNoPending], Ret tt)) as Hm.
    { unfold main, load_pending_transaction. rewrite H. reflexivity. }
    split; [unfold load_pending_transaction; rewrite H; reflexivity|].
    split; [exists LNoPending; split; [left; reflexivity|exact Hm]|].
    rewrite Hm. apply record_after_prints. repeat constructor.
  - assert (main w = ([Print LBanner; Print LLoadError], Ret tt)) as Hm.
    { unfold main, load_pending_transaction. rewrite H. reflexivity. }
    split; [unfold load_pending_transaction; rewrite H; reflexivity|].
    split; [exists LLoadError; split; [right; reflexivity|exact Hm]|].
    rewrite Hm. apply record_after_prints. repeat constructor.
Qed.

(** X2: a stored content that is falsy in Python (an empty object, an
    empty list or string, [null], [false], 0) makes [main] return right
    after the banner: the validator is not run and nothing is reported. *)
Theorem X2_falsy_content_is_silent (content : json) :
  pending_file w = Stored content ->
  truthy content = false ->
  main w = ([Print LBanner], Ret tt).
Proof.
  intros H Hf. unfold main, load_pending_transaction.
  rewrite H, (bind_ret_l content), Hf. reflexivity.
Qed.

End Loading.

Lemma X1_load_failure_witness :
  outcome (load_pending_transaction
             (with_file Scenario.world_accepted Unreadable)) = Ret JNull /\
  (exists l, (l = LNoPending \/ l = LLoadError) /\
             main (with_file Scenario.world_accepted Unreadable)
             = ([Print LBanner; Print l], Ret tt)) /\
  record_after (with_file Scenario.world_accepted Unreadable)
    (trace (main (with_file Scenario.world_accepted Unreadable)))
  = pending_file (with_file Scenario.world_accepted Unreadable).
Proof.
  apply (X1_load_failure_stops_main (with_file Scenario.world_accepted Unreadable)).
  right. reflexivity.
Defined.

Lemma X2_empty_object_witness :
  main (with_file Scenario.world_accepted (Stored (JDict ∅)))
  = ([Print LBanner], Ret tt).
Proof.
  apply (X2_falsy_content_is_silent
           (with_file Scenario.world_accepted (Stored (JDict ∅))) (JDict ∅));
    reflexivity.
Defined.

(** ** The fallback's result in [main] *)

Section FallbackOutcome.
Variable w : World.

Lemma call_in_filter (tx wif fee : json) (t : list event) :
  In (CallFallback tx wif fee) t ->
  In (CallFallback tx wif fee) (List.filter is_fallback_call t).
Proof. intros H. apply List.filter_In. split; [exact H|reflexivity]. Qed.

Lemma inert_not_call (t : list event) :
  Forall (fun e => inert e = true) t -> List.filter is_fallback_call t = [].
Proof.
  intros H. apply filter_none. eapply Forall_impl; [exact H|].
  intros [l| | | | | |]; cbn; first [discriminate|reflexivity].
Qed.

Lemma raw_falsy_quiet (raw txid : json) :
  outcome (broadcast_raw_transaction w raw) = Ret txid ->
  truthy txid = false ->
  Forall (fun e => loud e = false) (trace (broadcast_raw_transaction w raw)).
Proof.
  unfold broadcast_raw_transaction.
  destruct (http_post w raw) as [status body| |]; run.
  - destruct (status =? 200); run.
    + destruct (encodable (strip body)); run; intros H Hf; [|discriminate H].
      injection H as <-. cbn [truthy] in Hf.
      repeat constructor. cbn. destruct (strip body); [reflexivity|discriminate Hf].
    + destruct (encodable body); run; intros H Hf; [|discriminate H].
      repeat constructor.
  - intros _ _. repeat constructor.
  - intros H. discriminate H.
Qed.

Lemma main_fallback_result (tx_data tx fee wif txid : json) :
  py_get tx "fee_sats" JNull = Ret fee ->
  py_get tx_data "private_key_wif" JNull = Ret wif ->
  outcome (python_fallback_broadcast w tx wif fee) = Ret txid ->
  main_fallback w tx_data tx
  = (Print LUsingFallback :: trace (python_fallback_broadcast w tx wif fee)
       ++ (if truthy txid then Unlink :: removed w ++ [Print LSuccess]
           else [Print LFailed]),
     Ret tt).
Proof.
  intros Hfee Hwif Hout. unfold main_fallback.
  rewrite Hfee, bind_lift_ret, Hwif, bind_lift_ret.
  destruct (python_fallback_broadcast w tx wif fee) as [tp rp].
  cbn [outcome snd] in Hout. subst rp. run.
  destruct (truthy txid); [rewrite cleanup_eq|]; run; reflexivity.
Qed.

(** A fallback call in the fallback tail is the tail's own: with the
    tail's transaction, the stored fee and the stored key. *)
Lemma main_fallback_call (tx_data tx' tx wif fee : json) :
  In (CallFallback tx wif fee) (trace (main_fallback w tx_data tx')) ->
  tx = tx' /\
  py_get tx' "fee_sats" JNull = Ret fee /\
  py_get tx_data "private_key_wif" JNull = Ret wif.
Proof.
  intros Hin.
  destruct (py_get tx' "fee_sats" JNull) as [fee'|e] eqn:Hfee.
  - destruct (py_get tx_data "private_key_wif" JNull) as [wif'|e] eqn:Hwif.
    + apply call_in_filter in Hin.
      rewrite (main_fallback_calls w tx_data tx' fee' wif' Hfee Hwif) in Hin.
      destruct Hin as [Heq | []]. injection Heq as <- <- <-.
      repeat split; reflexivity.
    + exfalso. unfold main_fallback in Hin. revert Hin.
      rewrite Hfee, bind_lift_ret, Hwif. run.
      intros [H | []]. discriminate H.
  - exfalso. unfold main_fallback in Hin. revert Hin.
    rewrite Hfee. run. intros [H | []]. discriminate H.
Qed.

(** A fallback call in the broadcast is made after a quiet prefix. *)
Lemma main_broadcast_call (tx_data tx' tx wif fee : json) :
  In (CallFallback tx wif fee) (trace (main_broadcast w tx_data tx')) ->
  exists pre : list event,
    Forall (fun e => loud e = false) pre /\
    List.filter is_fallback_call pre = [] /\
    main_broadcast w tx_data tx'
    = (pre ++ trace (main_fallback w tx_data tx'),
       outcome (main_fallback w tx_data tx')).
Proof.
  unfold main_broadcast.
  destruct (py_get tx_data "raw_transaction_hex" JNull) as [raw|e]; run;
    [|intros []].
  destruct (truthy raw); run;
    [|intros _; exists []; split; [constructor|]; split; [reflexivity|];
      destruct (main_fallback w tx_data tx'); reflexivity].
  destruct (py_getitem tx_data "raw_transaction_hex") as [raw'|e]; run;
    [|intros [H | []]; discriminate H].
  pose proof (raw_falsy_quiet raw') as Hquiet.
  pose proof (raw_trace_no_fallback_call w raw') as Hnone.
  destruct (broadcast_raw_transaction w raw') as [tr [txid|e]];
    cbn [trace outcome fst snd] in *; run.
  - destruct (truthy txid) eqn:Ht.
    + rewrite cleanup_eq. cbn [trace fst].
      intros [H | H]; [discriminate H|]. exfalso.
      apply in_app_or in H. destruct H as [H | H].
      * apply call_in_filter in H. rewrite Hnone in H. destruct H.
      * destruct H as [H | H]; [discriminate H|].
        unfold removed in H. destruct (unlink_ok w);
          [destruct H as [H | []]; discriminate H|destruct H].
    + intros _. exists (Print LAttemptRaw :: tr). split.
      * constructor; [reflexivity|]. exact (Hquiet txid eq_refl Ht).
      * split; [exact Hnone|]. destruct (main_fallback w tx_data tx'). reflexivity.
  - intros [H | H]; [discriminate H|]. exfalso.
    rewrite ?app_nil_r in H.
    apply call_in_filter in H. rewrite Hnone in H. destruct H.
Qed.

Variable tx wif fee txid : json.
Hypothesis Hcall : In (CallFallback tx wif fee) (trace (main w)).
Hypothesis Hout : outcome (python_fallback_broadcast w tx wif fee) = Ret txid.

(** A run in which the fallback was called and returned is a quiet
    prefix followed by the verdict on what the fallback returned. *)
Lemma main_after_fallback :
  exists pre : list event,
    Forall (fun e => loud e = false) pre /\
    main w = (pre ++ (if truthy txid
                      then Unlink :: removed w ++ [Print LSuccess]
                      else [Print LFailed]),
              Ret tt).
Proof.
  destruct (main_cases_inert w)
    as [Hinert | (tx_data & tx' & pre & _ & _ & _ & Hpre & Hmain)].
  { exfalso. apply call_in_filter in Hcall.
    rewrite (inert_not_call _ Hinert) in Hcall. destruct Hcall. }
  assert (In (CallFallback tx wif fee) (trace (main_broadcast w tx_data tx')))
    as Hin.
  { rewrite Hmain in Hcall. cbn [trace fst] in Hcall.
    apply in_app_or in Hcall. destruct Hcall as [H | H]; [exfalso|exact H].
    apply call_in_filter in H. rewrite (inert_not_call _ Hpre) in H. destruct H. }
  destruct (main_broadcast_call tx_data tx' tx wif fee Hin)
    as (mid & Hmid & Hnocall & Hb).
  assert (In (CallFallback tx wif fee) (trace (main_fallback w tx_data tx')))
    as Hin'.
  { rewrite Hb in Hin. cbn [trace fst] in Hin.
    apply in_app_or in Hin. destruct Hin as [H | H]; [exfalso|exact H].
    apply call_in_filter in H. rewrite Hnocall in H. destruct H. }
  destruct (main_fallback_call tx_data tx' tx wif fee Hin') as (<- & Hfee & Hwif).
  rewrite (main_fallback_result tx_data tx fee wif txid Hfee Hwif Hout) in Hb.
  cbn [trace outcome fst snd] in Hb.
  exists (pre ++ mid ++ Print LUsingFallback
            :: trace (python_fallback_broadcast w tx wif fee)).
  split.
  - apply Forall_app. split.
    { eapply Forall_impl; [exact Hpre|exact inert_quiet]. }
    apply Forall_app. split; [exact Hmid|].
    constructor; [reflexivity|]. apply fallback_shape.
  - rewrite Hmain, Hb. cbn [trace outcome fst snd].
    rewrite <- !app_assoc. reflexivity.
Qed.

End FallbackOutcome.

(** X4: when [main] calls the fallback and the fallback returns a falsy
    result ([None] after a key or send error, or an empty identifier),
    the run ends normally on the failure line, without an unlink, and
    the record is still in the store. *)
Theorem X4_fallback_failure_keeps_record (w : World)
    (tx wif fee txid : json) :
  In (CallFallback tx wif fee) (trace (main w)) ->
  outcome (python_fallback_broadcast w tx wif fee) = Ret txid ->
  truthy txid = false ->
  List.last (trace (main w)) (Print LBanner) = Print LFailed /\
  count is_unlink (trace (main w)) = 0%nat /\
  outcome (main w) = Ret tt /\
  record_after w (trace (main w)) = pending_file w.
Proof.
  intros Hcall Hout Hfalsy.
  destruct (main_after_fallback w tx wif fee txid Hcall Hout)
    as (pre & Hpre & Hmain).
  rewrite Hfalsy in Hmain. rewrite Hmain. cbn [trace outcome fst snd].
  assert (Forall (fun e => is_unlink e = false) (pre ++ [Print LFailed])) as Hnu.
  { apply Forall_app. split; [|repeat constructor].
    eapply Forall_impl; [exact Hpre|exact quiet_not_unlink]. }
  split; [apply List.last_last|].
  split; [apply count_none; exact Hnu|].
  split; [reflexivity|].
  unfold record_after. rewrite (existsb_none _ _ Hnu), andb_false_r.
  reflexivity.
Qed.

(** X5: when [main] calls the fallback and the fallback returns a
    non-empty identifier, the record is unlinked once, the run ends
    normally on the success line, and the file is gone when the unlink
    succeeds. *)
Theorem X5_fallback_success_cleans_up (w : World)
    (tx wif fee txid : json) :
  In (CallFallback tx wif fee) (trace (main w)) ->
  outcome (python_fallback_broadcast w tx wif fee) = Ret txid ->
  truthy txid = true ->
  List.last (trace (main w)) (Print LBanner) = Print LSuccess /\
  count is_unlink (trace (main w)) = 1%nat /\
  outcome (main w) = Ret tt /\
  (unlink_ok w = true -> record_after w (trace (main w)) = NoFile).
Proof.
  intros Hcall Hout Htruthy.
  destruct (main_after_fallback w tx wif fee txid Hcall Hout)
    as (pre & Hpre & Hmain).
  rewrite Htruthy in Hmain. rewrite Hmain. cbn [trace outcome fst snd].
  split.
  { replace (pre ++ Unlink :: removed w ++ [Print LSuccess])
      with ((pre ++ Unlink :: removed w) ++ [Print LSuccess])
      by (rewrite <- app_assoc; reflexivity).
    apply List.last_last. }
  split.
  { rewrite count_app, (count_none is_unlink pre)
      by (eapply Forall_impl; [exact Hpre|exact quiet_not_unlink]).
    unfold count. cbn [List.filter is_unlink]. rewrite List.filter_app.
    rewrite (filter_none is_unlink (removed w)) by apply removed_quiet.
    reflexivity. }
  split; [reflexivity|].
  intros Hok. unfold record_after. rewrite Hok, existsb_app.
  cbn. rewrite orb_true_r. reflexivity.
Qed.

Lemma X4_send_raises_witness :
  List.last (trace (main Scenario.world_send_raises)) (Print LBanner)
  = Print LFailed /\
  count is_unlink (trace (main Scenario.world_send_raises)) = 0%nat /\
  outcome (main Scenario.world_send_raises) = Ret tt /\
  record_after Scenario.world_send_raises
    (trace (main Scenario.world_send_raises))
  = pending_file Scenario.world_send_raises.
Proof.
  apply (X4_fallback_failure_keeps_record Scenario.world_send_raises
           (JDict (Scenario.tx (JInt 1000))) (JStr (text_of "K")) JNull JNull).
  - vm_compute. do 9 right. left. reflexivity.
  - reflexivity.
  - reflexivity.
Defined.

Lemma X5_fallback_after_rejection_witness :
  List.last (trace (main Scenario.world_rejected)) (Print LBanner)
  = Print LSuccess /\
  count is_unlink (trace (main Scenario.world_rejected)) = 1%nat /\
  outcome (main Scenario.world_rejected) = Ret tt /\
  record_after Scenario.world_rejected (trace (main Scenario.world_rejected))
  = NoFile.
Proof.
  destruct (X5_fallback_success_cleans_up Scenario.world_rejected
              (JDict (Scenario.tx (JInt 1000))) (JStr (text_of "K")) JNull
              (JStr (text_of "xyz789")))
    as (Hlast & Hone & Hend & Hgone).
  - vm_compute. do 13 right. left. reflexivity.
  - reflexivity.
  - reflexivity.
  - split; [exact Hlast|]. split; [exact Hone|]. split; [exact Hend|].
    apply Hgone. reflexivity.
Defined.
(** ** Exceptions that are not caught *)

(** X6: the outputs are built outside the [try]: with a key that loads,
    a transaction without [to_address], or without [amount_sats], makes
    the fallback raise [KeyError], and one whose [amount_sats] is [null]
    makes it raise [TypeError]; in each case the key has been loaded and
    nothing is sent. *)
Theorem X6_fallback_outputs_raise (w : World) (t : gmap string json)
    (wif fee_sats : json) :
  key_of_wif w wif = true ->
  let p := python_fallback_broadcast w (JDict t) wif fee_sats in
  (t !! "to_address"%string = None \/
   (is_Some (t !! "to_address"%string) /\ t !! "amount_sats"%string = None) ->
   p = ([CallFallback (JDict t) wif fee_sats; KeyLoad wif], Raise KeyError)) /\
  (is_Some (t !! "to_address"%string) ->
   t !! "amount_sats"%string = Some JNull ->
   p = ([CallFallback (JDict t) wif fee_sats; KeyLoad wif], Raise TypeError)).
Proof.
  intros Hk p. subst p. unfold python_fallback_broadcast.
  rewrite Hk. cbn [negb py_getitem]. split.
  - intros [Hto | [[to Hto] Hamt]].
    + rewrite Hto. reflexivity.
    + rewrite Hto, bind_lift_ret, Hamt. reflexivity.
  - intros [to Hto] Hamt.
    rewrite Hto, bind_lift_ret, Hamt, bind_lift_ret. reflexivity.
Qed.

Lemma X6_fallback_outputs_witness :
  (delete "to_address"%string (Scenario.tx (JInt 1000)) !! "to_address"%string
   = None \/
   (is_Some (delete "to_address"%string (Scenario.tx (JInt 1000))
               !! "to_address"%string) /\
    delete "to_address"%string (Scenario.tx (JInt 1000))
      !! "amount_sats"%string = None) ->
   python_fallback_broadcast Scenario.world_accepted
     (JDict (delete "to_address"%string (Scenario.tx (JInt 1000))))
     (JStr (text_of "K")) JNull
   = ([CallFallback
         (JDict (delete "to_address"%string (Scenario.tx (JInt 1000))))
         (JStr (text_of "K")) JNull; KeyLoad (JStr (text_of "K"))],
      Raise KeyError)) /\
  (is_Some (delete "to_address"%string (Scenario.tx (JInt 1000))
              !! "to_address"%string) ->
   delete "to_address"%string (Scenario.tx (JInt 1000))
     !! "amount_sats"%string = Some JNull ->
   python_fallback_broadcast Scenario.world_accepted
     (JDict (delete "to_address"%string (Scenario.tx (JInt 1000))))
     (JStr (text_of "K")) JNull
   = ([CallFallback
         (JDict (delete "to_address"%string (Scenario.tx (JInt 1000))))
         (JStr (text_of "K")) JNull; KeyLoad (JStr (text_of "K"))],
      Raise TypeError)).
Proof.
  apply (X6_fallback_outputs_raise Scenario.world_accepted
           (delete "to_address"%string (Scenario.tx (JInt 1000)))
           (JStr (text_of "K")) JNull).
  reflexivity.
Defined.

Section Uncaught.
Variable w : World.

Lemma post_in_raw_part (raw raw' : json) (rest tail : list event) :
  Forall (fun e => is_print e = true) rest ->
  ~ In (HttpPost raw) tail ->
  In (HttpPost raw)
     (Print LAttemptRaw :: (CallRaw raw' :: HttpPost raw' :: rest) ++ tail) ->
  raw' = raw.
Proof.
  intros Hrest Htail [H | [H | [H | H]]]; try discriminate H.
  - injection H as ->. reflexivity.
  - apply in_app_or in H. destruct H as [H | H]; [|contradiction].
    rewrite List.Forall_forall in Hrest. specialize (Hrest _ H).
    discriminate Hrest.
Qed.

(** A request in the broadcast that raised an exception other than a
    [RequestException] is where the broadcast ends. *)
Lemma main_broadcast_post (tx_data tx raw : json) :
  In (HttpPost raw) (trace (main_broadcast w tx_data tx)) ->
  http_post w raw = OtherFailure ->
  main_broadcast w tx_data tx
  = ([Print LAttemptRaw; CallRaw raw; HttpPost raw], Raise OtherError).
Proof.
  intros Hin Hpost. revert Hin. unfold main_broadcast.
  destruct (py_get tx_data "raw_transaction_hex" JNull) as [r|e]; run;
    [|intros []].
  assert (~ In (HttpPost raw) (trace (main_fallback w tx_data tx))) as Hnofb.
  { intros H. pose proof (main_fallback_no_raw w tx_data tx) as Hnf.
    rewrite List.Forall_forall in Hnf. specialize (Hnf _ H).
    discriminate Hnf. }
  destruct (main_fallback w tx_data tx) as [tf rf].
  cbn [trace fst] in Hnofb.
  destruct (truthy r); run; [|intros H; exfalso; exact (Hnofb H)].
  destruct (py_getitem tx_data "raw_transaction_hex") as [raw'|e]; run;
    [|intros [H | []]; discriminate H].
  destruct (raw_trace_shape w raw') as (rest & Htr & Hrest).
  destruct (broadcast_raw_transaction w raw') as [tr rr] eqn:Hbr.
  cbn [trace fst] in Htr. subst tr.
  assert (raw' = raw -> rr = Raise OtherError /\ rest = []) as Hsame.
  { intros ->. unfold broadcast_raw_transaction in Hbr.
    rewrite Hpost in Hbr. revert Hbr. run. intros H.
    injection H as <- <-. split; reflexivity. }
  destruct rr as [txid|e]; run.
  - destruct (truthy txid).
    + rewrite cleanup_eq. cbn [trace fst]. intros Hin. exfalso.
      assert (raw' = raw) as Heq.
      { eapply post_in_raw_part; [exact Hrest| |exact Hin].
        intros [H | H]; [discriminate H|].
        unfold removed in H. destruct (unlink_ok w);
          [destruct H as [H | []]; discriminate H|destruct H]. }
      destruct (Hsame Heq) as [H _]. discriminate H.
    + intros Hin. exfalso.
      assert (raw' = raw) as Heq
        by (eapply post_in_raw_part; [exact Hrest|exact Hnofb|exact Hin]).
      destruct (Hsame Heq) as [H _]. discriminate H.
  - intros Hin.
    assert (raw' = raw) as Heq.
    { eapply (post_in_raw_part raw raw' rest []);
        [exact Hrest|intros []|rewrite app_nil_r; exact Hin]. }
    destruct (Hsame Heq) as [H ->]. injection H as ->. subst raw'.
    reflexivity.
Qed.

End Uncaught.

(** X7: an exception of the request that is not a
    [requests.RequestException] is not caught: when [main] sends the
    request and the request raises one, [main] ends with it, after the
    request, without a fallback and without an unlink, and the record
    stays in the store. *)
Theorem X7_unexpected_exception_ends_main (w : World) (raw : json) :
  In (HttpPost raw) (trace (main w)) ->
  http_post w raw = OtherFailure ->
  outcome (main w) = Raise OtherError /\
  milestones (trace (main w)) = [HttpPost raw] /\
  count is_fallback (trace (main w)) = 0%nat /\
  record_after w (trace (main w)) = pending_file w.
Proof.
  intros Hin Hpost.
  assert (forall t : list event,
            Forall (fun e => is_print e = true) t -> ~ In (HttpPost raw) t)
    as Hnot.
  { intros t Ht H. rewrite List.Forall_forall in Ht. specialize (Ht _ H).
    discriminate Ht. }
  destruct (main_cases w)
    as [Hprints | (tx_data & tx & pre & _ & _ & _ & Hpre & Hmain)].
  { exfalso. exact (Hnot _ Hprints Hin). }
  assert (In (HttpPost raw) (trace (main_broadcast w tx_data tx))) as Hin'.
  { rewrite Hmain in Hin. cbn [trace fst] in Hin.
    apply in_app_or in Hin. destruct Hin as [H | H]; [|exact H].
    exfalso. exact (Hnot _ Hpre H). }
  rewrite (main_broadcast_post w tx_data tx raw Hin' Hpost) in Hmain.
  rewrite Hmain. cbn [trace outcome fst snd].
  assert (forall p : event -> bool,
            (forall l, p (Print l) = false) -> List.filter p pre = []) as Hf.
  { intros p Hp. apply filter_none. eapply Forall_impl; [exact Hpre|].
    intros [l| | | | | |] He; try discriminate He. apply Hp. }
  split; [reflexivity|].
  split; [unfold milestones; rewrite List.filter_app, Hf by reflexivity;
          reflexivity|].
  split; [unfold count; rewrite List.filter_app, Hf by reflexivity;
          reflexivity|].
  unfold record_after. rewrite existsb_app.
  replace (existsb is_unlink pre) with false.
  - cbn. rewrite andb_false_r. reflexivity.
  - symmetry. apply existsb_none. eapply Forall_impl; [exact Hpre|].
    intros [l| | | | | |] He; try discriminate He. reflexivity.
Qed.

Lemma X7_unexpected_exception_witness :
  outcome (main (Scenario.world
                   (Scenario.record_raw (JStr (text_of "deadbeef")))
                   OtherFailure)) = Raise OtherError /\
  milestones (trace (main (Scenario.world
                             (Scenario.record_raw (JStr (text_of "deadbeef")))
                             OtherFailure)))
  = [HttpPost (JStr (text_of "deadbeef"))] /\
  count is_fallback
    (trace (main (Scenario.world
                    (Scenario.record_raw (JStr (text_of "deadbeef")))
                    OtherFailure))) = 0%nat /\
  record_after
    (Scenario.world (Scenario.record_raw (JStr (text_of "deadbeef")))
       OtherFailure)
    (trace (main (Scenario.world
                    (Scenario.record_raw (JStr (text_of "deadbeef")))
                    OtherFailure)))
  = pending_file (Scenario.world
                    (Scenario.record_raw (JStr (text_of "deadbeef")))
                    OtherFailure).
Proof.
  apply (X7_unexpected_exception_ends_main
           (Scenario.world (Scenario.record_raw (JStr (text_of "deadbeef")))
              OtherFailure)
           (JStr (text_of "deadbeef"))).
  - vm_compute. do 10 right. left. reflexivity.
  - reflexivity.
Defined.
(** ** The identifier the raw broadcaster returns *)

Section Strip.

Lemma lstrip_no_leading (s : text) : starts_with_space (lstrip s) = false.
Proof.
  induction s as [|a s IH]; cbn [lstrip]; [reflexivity|].
  destruct (is_space a) eqn:Ha; [exact IH|]. cbn [starts_with_space]. exact Ha.
Qed.

Lemma lstrip_fixed (s : text) : starts_with_space s = false -> lstrip s = s.
Proof.
  destruct s as [|a s]; cbn [starts_with_space lstrip]; [reflexivity|].
  intros ->. reflexivity.
Qed.

Lemma lstrip_before_char (y : text) (c : N) :
  is_space c = false -> lstrip (y ++ [c]) = lstrip y ++ [c].
Proof.
  intros Hc. induction y as [|a y IH]; cbn [app lstrip].
  - rewrite Hc. reflexivity.
  - destruct (is_space a); [exact IH|reflexivity].
Qed.

Lemma strip_no_leading (s : text) : starts_with_space (strip s) = false.
Proof.
  unfold strip. pose proof (lstrip_no_leading s) as Hx.
  destruct (lstrip s) as [|c x]; [reflexivity|].
  cbn [starts_with_space] in Hx. cbn [rev].
  rewrite (lstrip_before_char _ c Hx), rev_app_distr.
  cbn [rev app starts_with_space]. exact Hx.
Qed.

Lemma strip_no_trailing (s : text) : ends_with_space (strip s) = false.
Proof.
  unfold ends_with_space, strip. rewrite rev_involutive.
  apply lstrip_no_leading.
Qed.

Lemma strip_fixed (s : text) :
  starts_with_space s = false -> ends_with_space s = false -> strip s = s.
Proof.
  intros Hl Hr. unfold strip. rewrite (lstrip_fixed s Hl).
  rewrite (lstrip_fixed (rev s) Hr). apply rev_involutive.
Qed.

Lemma strip_idempotent (s : text) : strip (strip s) = strip s.
Proof. apply strip_fixed; [apply strip_no_leading|apply strip_no_trailing]. Qed.

End Strip.

(** X8: an identifier returned by the raw broadcaster is the body of a
    200 answer with the whitespace characters of Python's [str.strip]
    removed at both ends: it neither starts nor ends with one, and
    stripping it again changes nothing. *)
Theorem X8_returned_txid_is_trimmed (w : World) (raw : json) (txid : text) :
  outcome (broadcast_raw_transaction w raw) = Ret (JStr txid) ->
  starts_with_space txid = false /\
  ends_with_space txid = false /\
  strip txid = txid /\
  exists body, http_post w raw = Response 200 body /\ txid = strip body.
Proof.
  unfold broadcast_raw_transaction.
  destruct (http_post w raw) as [status body| |]; run;
    [|intros H; discriminate H..].
  destruct (Z.eqb_spec status 200) as [->|Hne]; run.
  - destruct (encodable (strip body)); run; intros H; [|discriminate H].
    injection H as <-.
    split; [apply strip_no_leading|]. split; [apply strip_no_trailing|].
    split; [apply strip_idempotent|]. exists body. split; reflexivity.
  - destruct (encodable body); run; intros H; discriminate H.
Qed.

Lemma X8_returned_txid_witness :
  starts_with_space (text_of "abc123") = false /\
  ends_with_space (text_of "abc123") = false /\
  strip (text_of "abc123") = text_of "abc123" /\
  exists body,
    http_post (Scenario.world (Scenario.record_raw (JStr (text_of "deadbeef")))
                 (Response 200 (160%N :: text_of " abc123" ++ [8195%N; 10%N])))
      (JStr (text_of "deadbeef"))
    = Response 200 body /\
    text_of "abc123" = strip body.
Proof.
  apply (X8_returned_txid_is_trimmed
           (Scenario.world (Scenario.record_raw (JStr (text_of "deadbeef")))
              (Response 200 (160%N :: text_of " abc123" ++ [8195%N; 10%N])))
           (JStr (text_of "deadbeef")) (text_of "abc123")).
  reflexivity.
Defined.
(** ** The validator on a [transaction] that is not an object *)

Section OddTransaction.
Variable d : gmap string json.
Variable tx : json.
Hypothesis Hall : Forall (fun g => is_Some (d !! g)) required.
Hypothesis Htx : d !! "transaction"%string = Some tx.

Lemma verify_scalar_transaction :
  is_scalar tx = true ->
  verify_transaction_data (JDict d) = ([], Raise TypeError).
Proof.
  intros Hs. unfold verify_transaction_data.
  rewrite (all_present_all _ _ _ Hall), bind_ret_l.
  cbn [negb py_getitem]. rewrite Htx, bind_lift_ret.
  destruct tx; try discriminate Hs; reflexivity.
Qed.

Lemma verify_names_in_transaction :
  Forall (fun f => py_in f tx = Ret true) required_tx ->
  verify_transaction_data (JDict d) = ret true.
Proof.
  intros Hin. unfold verify_transaction_data.
  rewrite (all_present_all _ _ _ Hall), bind_ret_l.
  cbn [negb py_getitem]. rewrite Htx, bind_lift_ret.
  apply all_present_in. exact Hin.
Qed.

End OddTransaction.

(** X9: with the three top-level keys present and a [transaction] that
    is [null], a boolean or a number, the membership test raises: the
    validator raises [TypeError] instead of returning, and [main] ends
    on that exception with the banner alone printed. *)
Theorem X9_scalar_transaction_raises (d : gmap string json) (tx : json) :
  Forall (fun g => is_Some (d !! g)) required ->
  d !! "transaction"%string = Some tx ->
  is_scalar tx = true ->
  verify_transaction_data (JDict d) = ([], Raise TypeError) /\
  forall w : World,
    pending_file w = Stored (JDict d) ->
    main w = ([Print LBanner], Raise TypeError).
Proof.
  intros Hall Htx Hs.
  pose proof (verify_scalar_transaction d tx Hall Htx Hs) as Hv.
  split; [exact Hv|]. intros w Hw.
  unfold main, load_pending_transaction. rewrite Hw, (bind_ret_l (JDict d)).
  rewrite (truthy_dict d "transaction") by (rewrite Htx; eexists; reflexivity).
  cbn [negb]. rewrite Hv. reflexivity.
Qed.

(** X10: the validator tests membership, not shape: a [transaction]
    that is a list holding the three names, or a string they occur in,
    is accepted; [main] then raises [TypeError] at the first subscript,
    after the banner and the details heading, before any effect. *)
Theorem X10_sequence_transaction_passes (d : gmap string json) (tx : json) :
  Forall (fun g => is_Some (d !! g)) required ->
  d !! "transaction"%string = Some tx ->
  is_sequence tx = true ->
  Forall (fun f => py_in f tx = Ret true) required_tx ->
  verify_transaction_data (JDict d) = ([], Ret true) /\
  forall w : World,
    pending_file w = Stored (JDict d) ->
    main w = ([Print LBanner; Print LDetails], Raise TypeError).
Proof.
  intros Hall Htx Hs Hin.
  pose proof (verify_names_in_transaction d tx Hall Htx Hin) as Hv.
  split; [exact Hv|]. intros w Hw.
  unfold main, load_pending_transaction. rewrite Hw, (bind_ret_l (JDict d)).
  rewrite (truthy_dict d "transaction") by (rewrite Htx; eexists; reflexivity).
  cbn [negb]. rewrite Hv, bind_ret_l. cbn [negb py_getitem py_get].
  rewrite Htx, bind_lift_ret, bind_lift_ret.
  destruct tx; try discriminate Hs; reflexivity.
Qed.

Lemma X9_null_transaction_witness :
  verify_transaction_data
    (JDict (<["transaction"%string := JNull]> (Scenario.record (JInt 1000))))
  = ([], Raise TypeError) /\
  forall w : World,
    pending_file w
    = Stored (JDict (<["transaction"%string := JNull]>
                       (Scenario.record (JInt 1000)))) ->
    main w = ([Print LBanner], Raise TypeError).
Proof.
  apply (X9_scalar_transaction_raises
           (<["transaction"%string := JNull]> (Scenario.record (JInt 1000)))
           JNull).
  - repeat constructor; eexists; reflexivity.
  - reflexivity.
  - reflexivity.
Defined.

Lemma X10_list_transaction_witness :
  verify_transaction_data
    (JDict (<["transaction"%string :=
                JList [JStr (text_of "from_address"); JStr (text_of "to_address");
                       JStr (text_of "amount_sats")]]>
              (Scenario.record (JInt 1000))))
  = ([], Ret true) /\
  forall w : World,
    pending_file w
    = Stored (JDict (<["transaction"%string :=
                         JList [JStr (text_of "from_address"); JStr (text_of "to_address");
                                JStr (text_of "amount_sats")]]>
                       (Scenario.record (JInt 1000)))) ->
    main w = ([Print LBanner; Print LDetails], Raise TypeError).
Proof.
  apply (X10_sequence_transaction_passes
           (<["transaction"%string :=
                JList [JStr (text_of "from_address"); JStr (text_of "to_address");
                       JStr (text_of "amount_sats")]]>
              (Scenario.record (JInt 1000)))
           (JList [JStr (text_of "from_address"); JStr (text_of "to_address"); JStr (text_of "amount_sats")])).
  - repeat constructor; eexists; reflexivity.
  - reflexivity.
  - reflexivity.
  - repeat constructor.
Defined.

(** X11: in every run of [main], whatever the file holds, an effect
    other than printing (a request, a key load, a send, an unlink)
    occurs only when the stored content is an object with the keys
    [transaction], [private_key_wif] and [address] that the validator
    accepted. *)
Theorem X11_effects_need_validation (w : World) (e : event) :
  In e (trace (main w)) ->
  is_print e = false ->
  exists d : gmap string json,
    pending_file w = Stored (JDict d) /\
    Forall (fun g => is_Some (d !! g)) required /\
    outcome (verify_transaction_data (JDict d)) = Ret true.
Proof.
  intros Hin He.
  destruct (main_cases w) as [Hp | (tx_data & tx & pre & Hfile & Hv & _ & _ & _)].
  - rewrite List.Forall_forall in Hp. specialize (Hp e Hin).
    rewrite He in Hp. discriminate Hp.
  - destruct (verify_true_object tx_data Hv) as (d & tx' & -> & Hall & _ & _).
    exists d. split; [exact Hfile|]. split; [exact Hall|exact Hv].
Qed.

Lemma X11_effects_witness :
  exists d : gmap string json,
    pending_file Scenario.world_accepted = Stored (JDict d) /\
    Forall (fun g => is_Some (d !! g)) required /\
    outcome (verify_transaction_data (JDict d)) = Ret true.
Proof.
  apply (X11_effects_need_validation Scenario.world_accepted
           (HttpPost (JStr (text_of "deadbeef")))).
  - vm_compute. do 10 right. left. reflexivity.
  - reflexivity.
Defined.

(** ** The order of the effects *)

Section Milestones.
Variable w : World.

Lemma main_fallback_milestones (tx_data tx : json) :
  exists s u : list event,
    milestones (trace (main_fallback w tx_data tx)) = s ++ u /\
    (s = [] \/ exists k o f, s = [KeySend k o f]) /\
    (u = [] \/ (u = [Unlink] /\ s <> [])).
Proof.
  unfold main_fallback, python_fallback_broadcast. rewrite cleanup_eq.
  unfold removed. run.
  destruct (py_get tx "fee_sats" JNull) as [fee|e]; run; [|pick_milestones].
  destruct (py_get tx_data "private_key_wif" JNull) as [wif|e]; run;
    [|pick_milestones].
  destruct (key_of_wif w wif); run; [|pick_milestones].
  destruct (py_getitem tx "to_address") as [to|e]; run; [|pick_milestones].
  destruct (py_getitem tx "amount_sats") as [amt|e]; run; [|pick_milestones].
  destruct (py_satoshis_to_btc w amt) as [btc|e]; run; [|pick_milestones].
  destruct (truthy fee); run;
    (destruct (key_send w wif _ _) as [h|]; run;
     [destruct (encodable h); run; [destruct (truthy (JStr h))|]|]);
    destruct (unlink_ok w); run; pick_milestones.
Qed.

Lemma main_broadcast_milestones (tx_data tx : json) :
  exists p s u : list event,
    milestones (trace (main_broadcast w tx_data tx)) = p ++ s ++ u /\
    (p = [] \/ exists r, p = [HttpPost r]) /\
    (s = [] \/ exists k o f, s = [KeySend k o f]) /\
    (u = [] \/ (u = [Unlink] /\ (p <> [] \/ s <> []))).
Proof.
  unfold main_broadcast.
  destruct (main_fallback_milestones tx_data tx) as (s & u & Hm & Hs & Hu).
  destruct (main_fallback w tx_data tx) as [tf rf]. cbn [trace fst] in Hm.
  assert (u = [] \/ (u = [Unlink] /\ (@nil event <> [] \/ s <> []))) as Hu0.
  { destruct Hu as [-> | [-> Hne]]; [left; reflexivity|].
    right. split; [reflexivity|right; exact Hne]. }
  assert (forall r, u = [] \/ (u = [Unlink] /\ ([HttpPost r] <> [] \/ s <> [])))
    as Hu1.
  { intros r. destruct Hu as [-> | [-> Hne]]; [left; reflexivity|].
    right. split; [reflexivity|right; exact Hne]. }
  destruct (py_get tx_data "raw_transaction_hex" JNull) as [raw|e]; run.
  2:{ exists [], [], []. repeat split; left; reflexivity. }
  destruct (truthy raw); run.
  2:{ exists [], s, u. repeat split; first [exact Hm|left; reflexivity|assumption]. }
  destruct (py_getitem tx_data "raw_transaction_hex") as [raw'|e]; run.
  2:{ exists [], [], []. repeat split; left; reflexivity. }
  unfold broadcast_raw_transaction. run.
  assert (exists p s0 u0 : list event,
            milestones [Print LAttemptRaw; CallRaw raw'; HttpPost raw']
            = p ++ s0 ++ u0 /\
            (p = [] \/ exists r, p = [HttpPost r]) /\
            (s0 = [] \/ exists k o f, s0 = [KeySend k o f]) /\
            (u0 = [] \/ (u0 = [Unlink] /\ (p <> [] \/ s0 <> [])))) as Hstop.
  { exists [HttpPost raw'], [], [].
    split; [reflexivity|]. split; [right; eauto|].
    split; left; reflexivity. }
  destruct (http_post w raw') as [status text| |]; run.
  - destruct (status =? 200); run.
    + destruct (encodable (strip text)); run; [|exact Hstop].
      destruct (truthy (JStr (strip text))).
      * rewrite cleanup_eq. unfold removed. run.
        exists [HttpPost raw'], [], [Unlink].
        split; [destruct (unlink_ok w); reflexivity|].
        split; [right; eauto|]. split; [left; reflexivity|].
        right. split; [reflexivity|left; discriminate].
      * exists [HttpPost raw'], s, u.
        split; [unfold milestones in *; cbn; rewrite Hm; reflexivity|].
        split; [right; eauto|]. split; [exact Hs|exact (Hu1 raw')].
    + destruct (encodable text); run; [|exact Hstop].
      exists [HttpPost raw'], s, u.
      split; [unfold milestones in *; cbn; rewrite Hm; reflexivity|].
      split; [right; eauto|]. split; [exact Hs|exact (Hu1 raw')].
  - exists [HttpPost raw'], s, u.
    split; [unfold milestones in *; cbn; rewrite Hm; reflexivity|].
    split; [right; eauto|]. split; [exact Hs|exact (Hu1 raw')].
  - exists [HttpPost raw'], [], [].
    split; [reflexivity|]. split; [right; eauto|].
    split; left; reflexivity.
Qed.

End Milestones.

(** X12: every run of [main] is one pass: at most one raw request, at
    most one send and at most one unlink, in this order, and an unlink
    only after a request or a send. *)
Theorem X12_one_pass (w : World) :
  exists p s u : list event,
    milestones (trace (main w)) = p ++ s ++ u /\
    (p = [] \/ exists r, p = [HttpPost r]) /\
    (s = [] \/ exists k o f, s = [KeySend k o f]) /\
    (u = [] \/ (u = [Unlink] /\ (p <> [] \/ s <> []))).
Proof.
  assert (forall t : list event,
            Forall (fun e => is_print e = true) t -> milestones t = []) as Hp.
  { intros t Ht. apply filter_none. eapply Forall_impl; [exact Ht|].
    intros [l| | | | | |]; cbn; first [discriminate|reflexivity]. }
  destruct (main_cases w)
    as [Hprints | (tx_data & tx & pre & _ & _ & _ & Hpre & ->)].
  - exists [], [], []. split; [exact (Hp _ Hprints)|].
    repeat split; left; reflexivity.
  - destruct (main_broadcast_milestones w tx_data tx) as (p & s & u & Hm & H).
    exists p, s, u. split; [|exact H].
    cbn [trace fst]. unfold milestones in *.
    rewrite List.filter_app, (Hp pre Hpre). exact Hm.
Qed.

(** ** Negative amounts *)

Section Negative.
Import Decimal.

Lemma fix_opp (d : t) : fix_ (decimal_opp d) = result_opp (fix_ d).
Proof.
  destruct d as [s c e]. unfold fix_, decimal_opp. cbn [sign coeff exp].
  repeat match goal with
         | |- context [if ?b then _ else _] => destruct b
         end; reflexivity.
Qed.

Lemma div_opp (a b : t) : div (decimal_opp a) b = result_opp (div a b).
Proof.
  destruct a as [sa ca ea], b as [sb cb eb].
  change (decimal_opp (mk sa ca ea)) with (mk (negb sa) ca ea).
  unfold div. cbn [sign coeff exp].
  rewrite <- Bool.negb_xorb_l.
  destruct (cb =? 0); [destruct (ca =? 0); reflexivity|].
  destruct (ca =? 0); [apply (fix_opp (mk _ _ _))|].
  destruct (_ mod _ =? 0).
  - destruct (strip_zeros _ _ _ _) as [c e']. apply (fix_opp (mk _ _ _)).
  - apply (fix_opp (mk _ _ _)).
Qed.

End Negative.

(** X13: the conversion is odd: the opposite of a non-zero amount
    converts to the decimal of opposite sign, with the same digits and
    exponent, or overflows as the amount does; below [10^28] in
    absolute value a negative amount is converted, exactly. *)
Theorem X13_negative_amounts (n : Z) :
  0 < n ->
  satoshis_to_btc (- n) = result_opp (satoshis_to_btc n) /\
  (n < 10 ^ 28 ->
   exists d, satoshis_to_btc (- n) = Ret d /\
             Qeq (Decimal.to_Q d) (Qmake (- n) 100000000)).
Proof.
  intros Hn.
  assert (satoshis_to_btc (- n) = result_opp (satoshis_to_btc n)) as Hopp.
  { unfold satoshis_to_btc. rewrite <- div_opp. f_equal.
    unfold Decimal.of_int, decimal_opp. cbn [Decimal.sign Decimal.coeff Decimal.exp].
    rewrite Z.abs_opp.
    replace (- n <? 0) with true by (symmetry; apply Z.ltb_lt; lia).
    replace (n <? 0) with false by (symmetry; apply Z.ltb_ge; lia).
    reflexivity. }
  split; [exact Hopp|]. intros Hlt. rewrite Hopp.
  destruct (satoshis_to_btc_repr n ltac:(lia)) as (c & e & -> & He & Hc & Hv).
  exists (decimal_opp (Decimal.mk false c e)). split; [reflexivity|].
  unfold decimal_opp, Decimal.to_Q, Qeq.
  cbn [Decimal.sign Decimal.coeff Decimal.exp negb].
  destruct (Z.leb_spec 0 e) as [H0|Hneg].
  - replace e with 0 in * by lia. change (- 0) with 0 in Hv.
    change (10 ^ 0) with 1 in *. unfold inject_Z; cbn [Qnum Qden]. lia.
  - cbn [Qnum Qden]. rewrite Z2Pos.id by (apply Z.pow_pos_nonneg; lia). lia.
Qed.

Lemma X13_negative_amounts_witness :
  satoshis_to_btc (- 150000) = result_opp (satoshis_to_btc 150000) /\
  exists d, satoshis_to_btc (- 150000) = Ret d /\
            Qeq (Decimal.to_Q d) (Qmake (- 150000) 100000000).
Proof.
  destruct (X13_negative_amounts 150000) as [Hopp Hexact]; [lia|].
  split; [exact Hopp|]. apply Hexact. reflexivity.
Defined.

(** ** The precision of the conversion *)

Section Precision.
Import Decimal.

(** What [_fix] gives on a non-negative coefficient: an overflow, or a
    coefficient within the precision. *)
Lemma fix_cases (s : bool) (c e : Z) :
  0 <= c ->
  match fix_ (mk s c e) with
  | Ret d => 0 <= coeff d < 10 ^ prec
  | Raise x => x = DecimalOverflow
  end.
Proof.
  intros Hc. unfold fix_. cbn [sign coeff exp].
  assert (1 < 10 ^ prec) as Hp by (apply Z.pow_gt_1; unfold prec; lia).
  destruct (Z.eqb_spec c 0) as [->|Hnz]; cbn [coeff]; [lia|].
  pose proof (ndigits_spec c ltac:(lia)) as [Hlo Hhi].
  set (len := ndigits c) in *.
  destruct (Z.ltb_spec Etop (len + e - prec)) as [Hover|Hin]; [reflexivity|].
  set (exp_min := Z.max (len + e - prec) Etiny).
  assert (len + e - prec <= exp_min) as Hmin by (subst exp_min; lia).
  destruct (Z.ltb_spec e exp_min) as [Hround|Hfit].
  2:{ cbn [coeff]. split; [lia|].
      eapply Z.lt_le_trans; [exact Hhi|]. apply Z.pow_le_mono_r; lia. }
  destruct (Z.ltb_spec (len + e - exp_min) 0) as [Hneg|Hpos].
  - replace (1 / 10 ^ 1) with 0 by reflexivity.
    destruct (round_up_half_even 1 1); cbn [coeff]; [|lia].
    replace (prec <? ndigits (0 + 1)) with false by reflexivity.
    cbn [coeff]. lia.
  - set (k := exp_min - e).
    assert (0 < k) as Hk by (subst k; lia).
    assert (0 <= len - k <= prec) as Hd by (subst k; lia).
    assert (10 ^ len = 10 ^ (len - k) * 10 ^ k) as Hsplit.
    { rewrite <- Z.pow_add_r by lia. f_equal. lia. }
    assert (0 < 10 ^ k) as Hpk by (apply Z.pow_pos_nonneg; lia).
    assert (10 ^ (len - k) <= 10 ^ prec) as Hle
      by (apply Z.pow_le_mono_r; lia).
    assert (0 <= c / 10 ^ k < 10 ^ prec) as Hc0.
    { split; [apply Z.div_pos; lia|].
      eapply Z.lt_le_trans; [|exact Hle].
      apply Z.div_lt_upper_bound; [lia|].
      rewrite Z.mul_comm, <- Hsplit. exact Hhi. }
    destruct (round_up_half_even c k); cbn [coeff]; [|exact Hc0].
    destruct (Z.ltb_spec prec (ndigits (c / 10 ^ k + 1))) as [Hmore|Hok].
    + destruct (Z.ltb_spec Etop (exp_min + 1)); [reflexivity|].
      cbn [coeff]. split; [apply Z.div_pos; lia|].
      apply Z.div_lt_upper_bound; lia.
    + cbn [coeff]. split; [lia|].
      pose proof (ndigits_spec (c / 10 ^ k + 1) ltac:(lia)) as [_ Hhi1].
      eapply Z.lt_le_trans; [exact Hhi1|].
      apply Z.pow_le_mono_r; lia.
Qed.

(** With a coefficient of at most 31 digits and an exponent far enough
    below [Emax], [_fix] does not overflow. *)
Lemma fix_returns (s : bool) (c e : Z) :
  0 <= c < 10 ^ 31 -> e <= 999968 ->
  exists d, fix_ (mk s c e) = Ret d.
Proof.
  intros Hc He. unfold fix_. cbn [sign coeff exp].
  destruct (c =? 0); [eauto|].
  pose proof (ndigits_le c 31 Hc ltac:(lia)) as Hlen.
  set (len := ndigits c) in *.
  unfold Etop, Etiny, Emax, Emin, prec.
  destruct (Z.ltb_spec (999999 - 28 + 1) (len + e - 28)); [lia|].
  destruct (e <? Z.max (len + e - 28) (-999999 - 28 + 1)); [|eauto].
  destruct (round_up_half_even _ _); [|eauto].
  destruct (28 <? ndigits _); [|eauto].
  destruct (Z.ltb_spec (999999 - 28 + 1)
              (Z.max (len + e - 28) (-999999 - 28 + 1) + 1)); [lia|eauto].
Qed.

Lemma strip_zeros_bounds (fuel : nat) :
  forall c e ideal,
    0 <= c ->
    0 <= fst (strip_zeros fuel c e ideal) <= c /\
    snd (strip_zeros fuel c e ideal) <= Z.max e ideal.
Proof.
  induction fuel as [|f IH]; intros c e ideal Hc; cbn [strip_zeros];
    [cbn [fst snd]; lia|].
  destruct (Z.ltb_spec e ideal) as [Hlt|Hge]; cbn [andb];
    [|cbn [fst snd]; lia].
  destruct (c mod 10 =? 0); [|cbn [fst snd]; lia].
  assert (0 <= c / 10 <= c) as Hdiv.
  { split; [apply Z.div_pos; lia|]. apply Z.div_le_upper_bound; lia. }
  destruct (IH (c / 10) (e + 1) ideal ltac:(lia)) as [H1 H2].
  split; lia.
Qed.

(** The conversion ends in [_fix], on a coefficient of at most 31
    digits whose exponent follows the number of digits of the amount. *)
Lemma satoshis_to_btc_fix (n : Z) :
  exists s c e,
    satoshis_to_btc n = fix_ (mk s c e) /\
    0 <= c < 10 ^ 31 /\
    e <= Z.max 0 (ndigits (Z.abs n) - 38).
Proof.
  unfold satoshis_to_btc, div, of_int. cbn [sign coeff exp].
  change (Z.abs 100000000) with 100000000.
  change (100000000 =? 0) with false. cbv iota.
  change (ndigits 100000000) with 9.
  pose proof (Z.abs_nonneg n) as Habs.
  set (a := Z.abs n) in *.
  destruct (Z.eqb_spec a 0) as [Hz|Hnz].
  { eexists _, 0, (0 - 0). split; [reflexivity|]. split; lia. }
  pose proof (ndigits_spec a ltac:(lia)) as [Hlo Hhi].
  pose proof (ndigits_pos a) as Hlen.
  set (len := ndigits a) in *.
  unfold prec.
  set (shift := 9 - len + 28 + 1).
  set (num := if 0 <=? shift then a * 10 ^ shift else a).
  set (den := if 0 <=? shift then 100000000 else 100000000 * 10 ^ (- shift)).
  assert (0 <= num) as Hnum.
  { subst num. destruct (Z.leb_spec 0 shift); [|lia].
    apply Z.mul_nonneg_nonneg; [lia|]. apply Z.pow_nonneg; lia. }
  assert (0 < den) as Hden.
  { subst den. destruct (Z.leb_spec 0 shift); [lia|].
    apply Z.mul_pos_pos; [lia|]. apply Z.pow_pos_nonneg; lia. }
  assert (num < den * 10 ^ 30) as Hlt.
  { subst num den. destruct (Z.leb_spec 0 shift) as [Hs|Hs].
    - assert (10 ^ len * 10 ^ shift = 100000000 * 10 ^ 30) as Heq.
      { rewrite <- Z.pow_add_r by lia.
        replace (len + shift) with 38 by (subst shift; lia). reflexivity. }
      assert (0 < 10 ^ shift) by (apply Z.pow_pos_nonneg; lia).
      nia.
    - assert (100000000 * 10 ^ (- shift) * 10 ^ 30 = 10 ^ len) as Heq.
      { change 100000000 with (10 ^ 8).
        rewrite <- !Z.pow_add_r by lia. f_equal. subst shift. lia. }
      rewrite Heq. exact Hhi. }
  assert (0 <= num / den < 10 ^ 30) as Hq.
  { split; [apply Z.div_pos; lia|]. apply Z.div_lt_upper_bound; lia. }
  destruct (num mod den =? 0).
  - pose proof (strip_zeros_bounds
                  (Z.to_nat (0 - 0 - (0 - 0 - shift))) (num / den)
                  (0 - 0 - shift) (0 - 0) ltac:(lia)) as [Hc He].
    destruct (strip_zeros _ _ _ _) as [c e']. cbn [fst snd] in Hc, He.
    eexists _, c, e'. split; [reflexivity|].
    split; [lia|]. subst shift. lia.
  - eexists _, _, _. split; [reflexivity|].
    split; [destruct (_ =? 0); lia|]. subst shift. lia.
Qed.

End Precision.

(** X14: whatever the integer, the conversion either raises
    [decimal.Overflow] or returns a decimal whose coefficient has at
    most 28 digits, the precision of the default context; for an
    integer of at most 1,000,000 digits it returns. *)
Theorem X14_result_fits_precision (n : Z) :
  (satoshis_to_btc n = Raise DecimalOverflow \/
   exists d, satoshis_to_btc n = Ret d /\ 0 <= Decimal.coeff d < 10 ^ 28) /\
  (Decimal.ndigits (Z.abs n) <= 1000000 ->
   exists d, satoshis_to_btc n = Ret d /\ 0 <= Decimal.coeff d < 10 ^ 28).
Proof.
  destruct (satoshis_to_btc_fix n) as (s & c & e & -> & Hc & He).
  pose proof (fix_cases s c e ltac:(lia)) as Hcases.
  split.
  - destruct (Decimal.fix_ (Decimal.mk s c e)) as [d|x].
    + right. exists d. split; [reflexivity|exact Hcases].
    + left. rewrite Hcases. reflexivity.
  - intros Hlen.
    assert (e <= 999968) as He' by (clear Hcases Hc; lia).
    destruct (fix_returns s c e Hc He') as [d Hd].
    rewrite Hd in Hcases |- *. exists d. split; [reflexivity|exact Hcases].
Qed.

Lemma X14_result_fits_precision_witness :
  (satoshis_to_btc (10 ^ 40 + 5) = Raise DecimalOverflow \/
   exists d, satoshis_to_btc (10 ^ 40 + 5) = Ret d /\
             0 <= Decimal.coeff d < 10 ^ 28) /\
  exists d, satoshis_to_btc (10 ^ 40 + 5) = Ret d /\
            0 <= Decimal.coeff d < 10 ^ 28.
Proof.
  destruct (X14_result_fits_precision (10 ^ 40 + 5)) as [H1 H2].
  split; [exact H1|]. apply H2. vm_compute. discriminate.
Defined.


